(** * PRD2workflow backend: the workflow post-processor of [server.py]

    A shallow embedding of [GeminiAIService] (response normalisation,
    fallback synthesis, retry loop of [generate_workflow] and
    [analyze_document]) and the properties of it that the specification
    states.

    Conventions.
    - A Python [str] is a [string]; the character [ascii] of code [n]
      stands for [chr(n)], so the texts of the model are the ones over the
      code points below 256.
    - The JSON parser behind [json.loads], pydantic's validation of a
      field and [str(e)] belong to libraries: they are Variables of the
      section that holds the two orchestrators.
    - An [int] is a [Z]. *)

From Stdlib Require Import String Ascii List ZArith Lia Bool Arith.
From Stdlib Require Import DecimalString.
Import ListNotations.

Open Scope string_scope.

(** ** Python string operations used by the service *)

Module PyStr.

(** [c.isspace()] for a character below 256. *)
Definition isspace (c : ascii) : bool :=
  let n := nat_of_ascii c in
  (((9 <=? n) && (n <=? 13)) || ((28 <=? n) && (n <=? 32))
   || (n =? 133) || (n =? 160))%nat.

Fixpoint lstrip (s : string) : string :=
  match s with
  | String c s' => if isspace c then lstrip s' else s
  | EmptyString => EmptyString
  end.

Fixpoint rstrip (s : string) : string :=
  match s with
  | String c s' =>
      match rstrip s' with
      | EmptyString => if isspace c then EmptyString else String c EmptyString
      | r => String c r
      end
  | EmptyString => EmptyString
  end.

(** [s.strip()] *)
Definition strip (s : string) : string := rstrip (lstrip s).

(** [s.startswith(p)] *)
Definition startswith (p s : string) : bool := prefix p s.

(** [needle in s] *)
Fixpoint contains (needle s : string) : bool :=
  prefix needle s
  || match s with
     | String _ s' => contains needle s'
     | EmptyString => false
     end.

Fixpoint remove_from (old : string) (skip : nat) (s : string) : string :=
  match s with
  | EmptyString => EmptyString
  | String c s' =>
      match skip with
      | S k => remove_from old k s'
      | O => if prefix old s
             then remove_from old (String.length old - 1) s'
             else String c (remove_from old 0 s')
      end
  end.

(** [s.replace(old, '')]: the occurrences of [old] are deleted from left
    to right, without overlap. *)
Definition remove_all (old s : string) : string :=
  match old with
  | EmptyString => s
  | _ => remove_from old 0 s
  end.

(** [c.lower()] for a character below 256: A-Z and the capital letters
    of U+00C0..U+00DE (U+00D7, the multiplication sign, is no letter). *)
Definition lower_char (c : ascii) : ascii :=
  let n := nat_of_ascii c in
  if (((65 <=? n) && (n <=? 90))
      || ((192 <=? n) && (n <=? 222) && negb (n =? 215)))%nat
  then ascii_of_nat (n + 32) else c.

(** [s.lower()] *)
Fixpoint lower (s : string) : string :=
  match s with
  | String c s' => String (lower_char c) (lower s')
  | EmptyString => EmptyString
  end.

(** [s[:n]] *)
Definition take (n : nat) (s : string) : string := substring 0 n s.

(** The suffix of [s] that starts at the first [c]. *)
Fixpoint from_first (c : ascii) (s : string) : option string :=
  match s with
  | String a s' => if Ascii.eqb a c then Some s else from_first c s'
  | EmptyString => None
  end.

(** The prefix of [s] that ends at the last [c]. *)
Fixpoint upto_last (c : ascii) (s : string) : option string :=
  match s with
  | String a s' =>
      match upto_last c s' with
      | Some r => Some (String a r)
      | None => if Ascii.eqb a c then Some (String a EmptyString) else None
      end
  | EmptyString => None
  end.

(** [re.search(r'\o.*\c', s, re.DOTALL)] followed by [.group()], for two
    literal delimiters [o] and [c]: the search stops at the leftmost [o]
    that has a [c] behind it, and the greedy [.*], which matches line
    ends too under DOTALL, runs to the last [c] of the text. *)
Definition re_search_span (o c : ascii) (s : string) : option string :=
  match from_first o s with
  | Some (String _ rest) => option_map (String o) (upto_last c rest)
  | _ => None
  end.

(** [f'{n}'] for a natural number *)
Definition of_nat (n : nat) : string :=
  NilZero.string_of_uint (Nat.to_uint n).

End PyStr.

(** ** The node model *)

Module WorkflowNode.

(** [class WorkflowNode(BaseModel)] *)
Record t : Type := mk
  { id : string;
    type : string;
    label : string;
    x : Z;
    y : Z;
    connections : list string }.

End WorkflowNode.

(** ** The Fallback Synthesizer *)

Section Fallback.

(** [_create_smart_fallback_workflow(self, content, workflow_type)] *)
Definition _create_smart_fallback_workflow
    (content workflow_type : string) : list WorkflowNode.t :=
  let content_lower := PyStr.lower content in
  if workflow_type =? "user_journey" then
    if PyStr.contains "e-commerce" content_lower
       || PyStr.contains "shopping" content_lower
       || PyStr.contains "cart" content_lower
    then
      [ WorkflowNode.mk "start" "start" "User Opens App" 200 100 ["browse"];
        WorkflowNode.mk "browse" "process" "Browse Products" 500 100 ["select"];
        WorkflowNode.mk "select" "process" "Select Items" 800 100 ["cart"];
        WorkflowNode.mk "cart" "process" "Add to Cart" 1100 100 ["auth_check"];
        WorkflowNode.mk "auth_check" "decision" "User Logged In?" 1400 100 ["payment"; "login"];
        WorkflowNode.mk "login" "process" "Login/Register" 1400 300 ["payment"];
        WorkflowNode.mk "payment" "process" "Process Payment" 1700 100 ["success_check"];
        WorkflowNode.mk "success_check" "decision" "Payment Success?" 2000 100 ["confirmation"; "retry"];
        WorkflowNode.mk "retry" "process" "Retry Payment" 2000 300 ["payment"];
        WorkflowNode.mk "confirmation" "process" "Order Confirmation" 2300 100 ["end"];
        WorkflowNode.mk "end" "end" "Order Complete" 2600 100 [] ]
    else if PyStr.contains "social" content_lower
            || PyStr.contains "post" content_lower
            || PyStr.contains "media" content_lower
    then
      [ WorkflowNode.mk "start" "start" "User Login" 200 100 ["dashboard"];
        WorkflowNode.mk "dashboard" "process" "View Dashboard" 500 100 ["create"];
        WorkflowNode.mk "create" "process" "Create Post" 800 100 ["content_check"];
        WorkflowNode.mk "content_check" "decision" "Content Valid?" 1100 100 ["schedule"; "edit"];
        WorkflowNode.mk "edit" "process" "Edit Content" 1100 300 ["content_check"];
        WorkflowNode.mk "schedule" "decision" "Schedule or Publish?" 1400 100 ["publish"; "schedule_time"];
        WorkflowNode.mk "schedule_time" "process" "Set Schedule Time" 1400 50 ["publish"];
        WorkflowNode.mk "publish" "process" "Publish Content" 1700 100 ["end"];
        WorkflowNode.mk "end" "end" "Post Published" 2000 100 [] ]
    else
      [ WorkflowNode.mk "start" "start" "User Entry" 200 100 ["discover"];
        WorkflowNode.mk "discover" "process" "Discover Features" 500 100 ["valid_check"];
        WorkflowNode.mk "valid_check" "decision" "Valid Input?" 800 100 ["interact"; "error"];
        WorkflowNode.mk "error" "process" "Show Error Message" 800 300 ["discover"];
        WorkflowNode.mk "interact" "process" "User Interaction" 1100 100 ["complete"];
        WorkflowNode.mk "complete" "process" "Complete Task" 1400 100 ["end"];
        WorkflowNode.mk "end" "end" "Task Complete" 1700 100 [] ]
  else if workflow_type =? "service_blueprint" then
    if PyStr.contains "support" content_lower
       || PyStr.contains "ticket" content_lower
       || PyStr.contains "customer" content_lower
    then
      [ WorkflowNode.mk "start" "start" "Service Request" 200 100 ["validate"];
        WorkflowNode.mk "validate" "process" "Validate Request" 500 100 ["valid_check"];
        WorkflowNode.mk "valid_check" "decision" "Request Valid?" 800 100 ["route"; "reject"];
        WorkflowNode.mk "reject" "process" "Reject Request" 800 300 ["notify_rejection"];
        WorkflowNode.mk "notify_rejection" "end" "Rejection Sent" 1100 300 [];
        WorkflowNode.mk "route" "process" "Route to Team" 1100 100 ["priority"];
        WorkflowNode.mk "priority" "decision" "High Priority?" 1400 100 ["escalate"; "resolve"];
        WorkflowNode.mk "escalate" "process" "Escalate to Manager" 1400 50 ["resolve"];
        WorkflowNode.mk "resolve" "process" "Resolve Issue" 1700 100 ["quality_check"];
        WorkflowNode.mk "quality_check" "decision" "Quality Approved?" 2000 100 ["notify"; "rework"];
        WorkflowNode.mk "rework" "process" "Rework Solution" 2000 300 ["resolve"];
        WorkflowNode.mk "notify" "process" "Notify Customer" 2300 100 ["end"];
        WorkflowNode.mk "end" "end" "Service Complete" 2600 100 [] ]
    else
      [ WorkflowNode.mk "start" "start" "Service Trigger" 200 100 ["validate"];
        WorkflowNode.mk "validate" "process" "Input Validation" 500 100 ["valid_check"];
        WorkflowNode.mk "valid_check" "decision" "Input Valid?" 800 100 ["process"; "error"];
        WorkflowNode.mk "error" "end" "Error Response" 800 300 [];
        WorkflowNode.mk "process" "process" "Core Processing" 1100 100 ["quality"];
        WorkflowNode.mk "quality" "decision" "Quality Check Pass?" 1400 100 ["deliver"; "retry"];
        WorkflowNode.mk "retry" "process" "Retry Processing" 1400 300 ["process"];
        WorkflowNode.mk "deliver" "process" "Service Delivery" 1700 100 ["end"];
        WorkflowNode.mk "end" "end" "Service Complete" 2000 100 [] ]
  else if workflow_type =? "feature_flow" then
    if PyStr.contains "api" content_lower
       || PyStr.contains "integration" content_lower
    then
      [ WorkflowNode.mk "start" "start" "API Request" 200 100 ["auth"];
        WorkflowNode.mk "auth" "process" "Authentication" 500 100 ["auth_check"];
        WorkflowNode.mk "auth_check" "decision" "Auth Valid?" 800 100 ["validate"; "unauthorized"];
        WorkflowNode.mk "unauthorized" "end" "Unauthorized" 800 300 [];
        WorkflowNode.mk "validate" "process" "Input Validation" 1100 100 ["valid_check"];
        WorkflowNode.mk "valid_check" "decision" "Valid Input?" 1400 100 ["process"; "bad_request"];
        WorkflowNode.mk "bad_request" "end" "Bad Request" 1400 300 [];
        WorkflowNode.mk "process" "process" "Business Logic" 1700 100 ["integrate"];
        WorkflowNode.mk "integrate" "process" "External Integration" 2000 100 ["success_check"];
        WorkflowNode.mk "success_check" "decision" "Integration Success?" 2300 100 ["response"; "error_response"];
        WorkflowNode.mk "error_response" "end" "Error Response" 2300 300 [];
        WorkflowNode.mk "response" "end" "Success Response" 2600 100 [] ]
    else
      [ WorkflowNode.mk "start" "start" "Feature Trigger" 200 100 ["input"];
        WorkflowNode.mk "input" "process" "Input Processing" 500 100 ["validation"];
        WorkflowNode.mk "validation" "decision" "Input Valid?" 800 100 ["logic"; "error"];
        WorkflowNode.mk "error" "end" "Validation Error" 800 300 [];
        WorkflowNode.mk "logic" "process" "Core Logic" 1100 100 ["decide"];
        WorkflowNode.mk "decide" "decision" "Business Rules Met?" 1400 100 ["output"; "alternative"];
        WorkflowNode.mk "alternative" "process" "Alternative Path" 1400 300 ["output"];
        WorkflowNode.mk "output" "process" "Generate Output" 1700 100 ["end"];
        WorkflowNode.mk "end" "end" "Feature Complete" 2000 100 [] ]
  else
    (* Default fallback with decisions *)
      [ WorkflowNode.mk "start" "start" "Start" 200 100 ["process1"];
        WorkflowNode.mk "process1" "process" "Initial Process" 500 100 ["decision1"];
        WorkflowNode.mk "decision1" "decision" "Continue?" 800 100 ["process2"; "end_early"];
        WorkflowNode.mk "end_early" "end" "Early Exit" 800 300 [];
        WorkflowNode.mk "process2" "process" "Final Process" 1100 100 ["end"];
        WorkflowNode.mk "end" "end" "Complete" 1400 100 [] ].

(** [_create_fallback_workflow(self, content, workflow_type)] *)
Definition _create_fallback_workflow
    (content workflow_type : string) : list WorkflowNode.t :=
  _create_smart_fallback_workflow content workflow_type.

End Fallback.

Arguments _create_smart_fallback_workflow : simpl never.

(** ** Values and exceptions of the Python side *)

(** What [json.loads] returns.  A float is kept as its binary64 pattern. *)
#[warnings="-register-all"]
Inductive json : Type :=
| JNull
| JBool (b : bool)
| JInt (n : Z)
| JFloat (bits : Z)
| JStr (s : string)
| JArr (items : list json)
| JObj (fields : list (string * json)).

(** The exception classes that the handlers of the service tell apart
    ([TimeoutError] is [asyncio.TimeoutError], [ClientError] is
    [aiohttp.ClientError]). *)
Inductive exn : Type :=
| JSONDecodeError
| TypeError
| AttributeError
| KeyError
| IndexError
| ValidationError
| TimeoutError
| ClientError (msg : string)
| HTTPException (status_code : Z) (detail : string)
| OtherError (msg : string).

(** A computation that returns or raises. *)
Inductive result (A : Type) : Type :=
| Ok (a : A)
| Raise (e : exn).

Arguments Ok {A} a.
Arguments Raise {A} e.

Definition bind {A B : Type} (r : result A) (k : A -> result B) : result B :=
  match r with
  | Ok a => k a
  | Raise e => Raise e
  end.

Notation "x <- r ;; k" := (bind r (fun x => k))
  (at level 61, r at next level, right associativity).

Module Py.

(** [d.get(key)] on a dict, [None] when the key is absent. *)
Fixpoint lookup (key : string) (fields : list (string * json)) : option json :=
  match fields with
  | (k, v) :: rest => if k =? key then Some v else lookup key rest
  | [] => None
  end.

(** [d.get(key, default)] *)
Definition get (fields : list (string * json)) (key : string) (default : json) : json :=
  match lookup key fields with
  | Some v => v
  | None => default
  end.

(** [bool(v)] *)
Definition truthy (v : json) : bool :=
  match v with
  | JNull => false
  | JBool b => b
  | JInt n => negb (n =? 0)%Z
  | JFloat bits => negb (bits mod 2 ^ 63 =? 0)%Z
  | JStr s => negb (s =? "")
  | JArr items => match items with [] => false | _ => true end
  | JObj fields => match fields with [] => false | _ => true end
  end.

(** [for e in v]: the elements of a list, the characters of a str, the
    keys of a dict; anything else is not iterable. *)
Definition iter (v : json) : result (list json) :=
  match v with
  | JArr items => Ok items
  | JStr s => Ok (map (fun c => JStr (String c "")) (list_ascii_of_string s))
  | JObj fields => Ok (map (fun kv => JStr (fst kv)) fields)
  | _ => Raise TypeError
  end.

(** [key in v] for a str [key] *)
Definition contains (key : string) (v : json) : result bool :=
  match v with
  | JObj fields => Ok (match lookup key fields with Some _ => true | None => false end)
  | JArr items =>
      Ok (existsb (fun e => match e with JStr s => s =? key | _ => false end) items)
  | JStr s => Ok (PyStr.contains key s)
  | _ => Raise TypeError
  end.

(** [v[key]] for a str [key] *)
Definition getitem (v : json) (key : string) : result json :=
  match v with
  | JObj fields =>
      match lookup key fields with
      | Some w => Ok w
      | None => Raise KeyError
      end
  | _ => Raise TypeError
  end.

(** [v[0]] *)
Definition getitem0 (v : json) : result json :=
  match v with
  | JArr (e :: _) => Ok e
  | JArr [] => Raise IndexError
  | JStr (String c _) => Ok (JStr (String c ""))
  | JStr EmptyString => Raise IndexError
  | JObj _ => Raise KeyError
  | _ => Raise TypeError
  end.

(** [len(v)] *)
Definition len (v : json) : result nat :=
  match v with
  | JArr items => Ok (List.length items)
  | JStr s => Ok (String.length s)
  | JObj fields => Ok (List.length fields)
  | _ => Raise TypeError
  end.

(** [isinstance(v, dict) and key in v] *)
Definition dict_has (key : string) (v : json) : bool :=
  match v with
  | JObj fields => match lookup key fields with Some _ => true | None => false end
  | _ => false
  end.

End Py.

(** ** The retry loop *)

(** How one pass through the body of [for attempt in range(...)] ends. *)
Inductive step (A : Type) : Type :=
| Return (a : A)
| Raised (e : exn)
| Continue (delay : Z).

Arguments Return {A} a.
Arguments Raised {A} e.
Arguments Continue {A} delay.

(** What the caller of the service observes: every request that was
    posted (with its timeout) and every [asyncio.sleep]. *)
Inductive event : Type :=
| Post (attempt : nat) (timeout_duration : Z)
| Sleep (delay : Z).

(** How a call ends; [FellThrough] is a loop that ran out without a
    [return] or a [raise] (Python would return [None]). *)
Inductive outcome (A : Type) : Type :=
| Returned (a : A)
| Failed (e : exn)
| FellThrough.

Arguments Returned {A} a.
Arguments Failed {A} e.
Arguments FellThrough {A}.

(** What the upstream does with the request of one attempt: it answers
    with a status and a body, or the call raises. *)
Inductive upstream : Type :=
| Response (status : Z) (response_text : string)
| CallRaises (e : exn).

Definition of_result {A : Type} (r : result A) : step A :=
  match r with
  | Ok a => Return a
  | Raise e => Raised e
  end.

(** [for attempt in attempts: <body>], each pass posting one request
    with [timeout_duration = 30 + attempt * 15]. *)
Fixpoint for_attempts {A : Type} (body : nat -> step A) (attempts : list nat)
  : list event * outcome A :=
  match attempts with
  | [] => ([], FellThrough)
  | attempt :: rest =>
      let posted := Post attempt (30 + Z.of_nat attempt * 15) in
      match body attempt with
      | Return a => ([posted], Returned a)
      | Raised e => ([posted], Failed e)
      | Continue delay =>
          let (trace, o) := for_attempts body rest in
          (posted :: Sleep delay :: trace, o)
      end
  end.

(** The number of requests in a trace. *)
Definition attempts_made (trace : list event) : nat :=
  List.length (filter (fun ev => match ev with Post _ _ => true | _ => false end) trace).

(** ** Stand-ins for the libraries, to run the service on examples *)

(** A validation that accepts a value of the declared type only. *)
Definition strict_str (v : json) : option string :=
  match v with
  | JStr s => Some s
  | _ => None
  end.

Definition strict_int (v : json) : option Z :=
  match v with
  | JInt n => Some n
  | _ => None
  end.

(** A JSON parser that knows the texts of a table and rejects the rest. *)
Fixpoint parse_from (table : list (string * json)) (s : string) : option json :=
  match table with
  | (text, v) :: rest => if text =? s then Some v else parse_from rest s
  | [] => None
  end.

(** A [str(e)] and an f-string rendering that show the class only. *)
Definition class_name (e : exn) : string :=
  match e with
  | JSONDecodeError => "JSONDecodeError"
  | TypeError => "TypeError"
  | AttributeError => "AttributeError"
  | KeyError => "KeyError"
  | IndexError => "IndexError"
  | ValidationError => "ValidationError"
  | TimeoutError => "TimeoutError"
  | ClientError _ => "ClientError"
  | HTTPException _ _ => "HTTPException"
  | OtherError _ => "Exception"
  end.

Definition show (v : json) : string :=
  match v with
  | JStr s => s
  | _ => "<value>"
  end.

(** The envelope of a successful completion around a text. *)
Definition envelope (content : json) : json :=
  JObj [("candidates",
         JArr [JObj [("content", JObj [("parts", JArr [JObj [("text", content)]])])]])].

(** ** Sample texts *)

(** Every apostrophe of [s] becomes a double quote: JSON texts are
    written below with apostrophes for their quotes. *)
Fixpoint dq (s : string) : string :=
  match s with
  | String c s' =>
      String (if Ascii.eqb c "'" then ascii_of_nat 34 else c) (dq s')
  | EmptyString => EmptyString
  end.

(** The body of a 200 response that carries a text without quotes. *)
Definition body_of (content : string) : string :=
  dq "{'candidates': [{'content': {'parts': [{'text': '" ++ content ++ dq "'}]}}]}".

(** A completion that is no JSON and has no bracket. *)
Definition apology : string := "Sorry, I cannot produce a workflow.".

(** A completion that is an array of three empty node objects. *)
Definition three_blanks : string := "[{}, {}, {}]".

(** A completion with words around an array of two empty node objects. *)
Definition two_blanks_in_prose : string := "Here it is: [{}, {}] Done.".

(** A completion of three well-formed node objects, one of whose
    connection entries has an empty target. *)
Definition three_steps : string :=
  dq "[{'id': 'a', 'type': 'start', 'label': 'A', 'x': 200, 'y': 100, 'connections': [{'target': 'b', 'label': 'Yes'}, {'target': '', 'label': 'No'}, 'c']}, {'id': 'b', 'type': 'process', 'label': 'B', 'x': 500, 'y': 100, 'connections': []}, {'id': 'c', 'type': 'end', 'label': 'C', 'x': 800, 'y': 100, 'connections': []}]".

Definition three_steps_value : list json :=
  [ JObj [("id", JStr "a"); ("type", JStr "start"); ("label", JStr "A");
          ("x", JInt 200); ("y", JInt 100);
          ("connections",
           JArr [JObj [("target", JStr "b"); ("label", JStr "Yes")];
                 JObj [("target", JStr ""); ("label", JStr "No")];
                 JStr "c"])];
    JObj [("id", JStr "b"); ("type", JStr "process"); ("label", JStr "B");
          ("x", JInt 500); ("y", JInt 100); ("connections", JArr [])];
    JObj [("id", JStr "c"); ("type", JStr "end"); ("label", JStr "C");
          ("x", JInt 800); ("y", JInt 100); ("connections", JArr [])] ].

(** The body of an error response of the upstream. *)
Definition error_body : string :=
  dq "{'error': {'message': 'API key not valid'}}".

(** The parser on the sample texts. *)
Definition sample_parse : string -> option json :=
  parse_from
    [ (body_of apology, envelope (JStr apology));
      (body_of three_blanks, envelope (JStr three_blanks));
      (body_of two_blanks_in_prose, envelope (JStr two_blanks_in_prose));
        (three_blanks, JArr [JObj []; JObj []; JObj []]);
      ("[{}, {}]", JArr [JObj []; JObj []]);
      (three_steps, JArr three_steps_value);
      (error_body, JObj [("error", JObj [("message", JStr "API key not valid")])]) ].

(** An upstream that gives the same answer at every attempt, and one that
    is overloaded at the first attempt. *)
Definition always (r : upstream) : nat -> upstream := fun _ => r.

Definition after_503 (r : upstream) : nat -> upstream :=
  fun attempt =>
    match attempt with
    | O => Response 503 ""
    | S _ => r
    end.

(** ** More stand-ins and sample texts *)

(** A validation that accepts a dict only. *)
Definition strict_dict (v : json) : option json :=
  match v with
  | JObj _ => Some v
  | _ => None
  end.

(** A UTF-8 decoder that knows the ASCII texts only. *)
Definition decode_ascii (file_content : list Byte.byte) : option string :=
  if forallb (fun b => (Byte.to_nat b <? 128)%nat) file_content
  then Some (string_of_list_byte file_content)
  else None.

(** A cp1252 decoder that rejects everything. *)
Definition decode_nothing (file_content : list Byte.byte) : option string := None.

(** A pdfplumber that fails on every file, and a PyPDF2 that finds the
    pages of a table, no page elsewhere. *)
Definition plumber_fails (file_content : list Byte.byte)
  : result (list (option string)) :=
  Raise (OtherError "No /Root object").

Definition pages_from (table : list (string * list string))
    (file_content : list Byte.byte) : result (list string) :=
  match
    find (fun entry => fst entry =? string_of_list_byte file_content) table
  with
  | Some entry => Ok (snd entry)
  | None => Ok []
  end.

(** A python-docx that reads no file. *)
Definition docx_fails (file_content : list Byte.byte)
  : result (list string * list (list (list string))) :=
  Raise (OtherError "File is not a zip file").

(** A token check that knows one token. *)
Definition one_token (token : string) : result json :=
  if token =? "token-of-ann" then Ok (JObj [("user_id", JStr "ann")])
  else Raise (HTTPException 401 "Invalid token").

(** The inside of the array [three_steps]. *)
Definition three_steps_inside : string :=
  dq "{'id': 'a', 'type': 'start', 'label': 'A', 'x': 200, 'y': 100, 'connections': [{'target': 'b', 'label': 'Yes'}, {'target': '', 'label': 'No'}, 'c']}, {'id': 'b', 'type': 'process', 'label': 'B', 'x': 500, 'y': 100, 'connections': []}, {'id': 'c', 'type': 'end', 'label': 'C', 'x': 800, 'y': 100, 'connections': []}".

(** The array of three empty node objects under a [workflow] key. *)
Definition wrapped_blanks : string := dq "{'workflow': [{}, {}, {}]}".

(** The parser on some more texts. *)
Definition more_parse (s : string) : option json :=
  match
    parse_from
      [ (body_of "42", envelope (JStr "42"));
        ("42", JInt 42);
        (body_of "Summary: {} Thanks.", envelope (JStr "Summary: {} Thanks."));
        ("{}", JObj []);
        (wrapped_blanks,
         JObj [("workflow", JArr [JObj []; JObj []; JObj []])]) ]
      s
  with
  | Some v => Some v
  | None => sample_parse s
  end.

(** An upstream whose call times out at every attempt. *)
Definition times_out : nat -> upstream := always (CallRaises TimeoutError).

(** ** The models of the routes *)

Module User.

(** [class User(BaseModel)] *)
Record t : Type := mk
  { id : string;
    email : string;
    name : string;
    hashed_password : string;
    created_at : string;
    is_active : bool }.

End User.

Module DocumentAnalysisRequest.

(** [class DocumentAnalysisRequest(BaseModel)] *)
Record t : Type := mk
  { document_content : string;
    analysis_type : string }.

End DocumentAnalysisRequest.

Module DocumentAnalysis.

(** [class DocumentAnalysis(BaseModel)] *)
Record t : Type := mk
  { id : string;
    document_content : string;
    analysis_result : json;
    document_length : nat;
    analysis_type : string;
    timestamp : string;
    user_id : option string }.

End DocumentAnalysis.

Module DocumentAnalysisResponse.

(** [class DocumentAnalysisResponse(BaseModel)] *)
Record t : Type := mk
  { id : string;
    analysis_result : json;
    document_length : nat;
    analysis_type : string;
    timestamp : string;
    user_id : option string }.

End DocumentAnalysisResponse.

Module FileAnalysis.

(** The dict that [analyze_document_file] returns. *)
Record t : Type := mk
  { id : string;
    filename : option string;
    analysis_result : json;
    document_length : nat;
    analysis_type : string;
    timestamp : string;
    user_id : option string }.

End FileAnalysis.

Module WorkflowRequest.

(** [class WorkflowRequest(BaseModel)] *)
Record t : Type := mk
  { document_content : string;
    workflow_type : string }.

End WorkflowRequest.

Module Workflow.

(** [class Workflow(BaseModel)] *)
Record t : Type := mk
  { id : string;
    document_content : string;
    workflow_nodes : list WorkflowNode.t;
    workflow_type : string;
    document_length : nat;
    timestamp : string;
    user_id : option string }.

End Workflow.

Module WorkflowResponse.

(** [class WorkflowResponse(BaseModel)] *)
Record t : Type := mk
  { id : string;
    workflow_nodes : list WorkflowNode.t;
    workflow_type : string;
    document_length : nat;
    timestamp : string;
    user_id : option string }.

End WorkflowResponse.

(** [s.endswith(suffix)] *)
Definition endswith (suffix s : string) : bool :=
  (String.length suffix <=? String.length s)%nat
  && (substring (String.length s - String.length suffix) (String.length suffix) s
      =? suffix).

(** ** The service *)

(** The two default layouts of [generate_workflow]: the one of the strict
    parse and the one of the bracket extraction. *)
Inductive parse_path : Type := Primary | Secondary.

Section GeminiAIService.

(** The parser behind [json.loads]: the value of a text, [None] for a
    text that is no JSON. *)
Variable parse_json : string -> option json.

(** pydantic's validation of a value given for a [str] field and for an
    [int] field of a model; [None] is a validation error. *)
Variable validate_str : json -> option string.
Variable validate_int : json -> option Z.

(** A value of the declared type passes the validation unchanged. *)
Hypothesis validate_str_accepts : forall s, validate_str (JStr s) = Some s.
Hypothesis validate_int_accepts : forall n, validate_int (JInt n) = Some n.

(** [str(e)] *)
Variable exn_str : exn -> string.

(** The text that an f-string puts for a value. *)
Variable format : json -> string.

(** [self.max_retries], [self.base_delay] *)
Definition max_retries : nat := 3.
Definition base_delay : Z := 2.

(** [json.loads(s)] *)
Definition json_loads (s : string) : result json :=
  match parse_json s with
  | Some v => Ok v
  | None => Raise JSONDecodeError
  end.

(** The removal of a Markdown code fence, written out in both
    orchestrators. *)
Definition cleaned_content (content : string) : string :=
  let cleaned := PyStr.strip content in
  if PyStr.startswith "```json" cleaned then
    PyStr.strip (PyStr.remove_all "```" (PyStr.remove_all "```json" cleaned))
  else if PyStr.startswith "```" cleaned then
    PyStr.strip (PyStr.remove_all "```" cleaned)
  else cleaned.

(** [try: r except json.JSONDecodeError: handler] *)
Definition except_JSONDecodeError {A : Type} (r handler : result A) : result A :=
  match r with
  | Raise JSONDecodeError => handler
  | _ => r
  end.

(** ['candidates' in result and len(result['candidates']) > 0] *)
Definition has_candidates (result_ : json) : result bool :=
  present <- Py.contains "candidates" result_ ;;
  if (present : bool) then
    candidates <- Py.getitem result_ "candidates" ;;
    n <- Py.len candidates ;;
    Ok (0 <? n)%nat
  else Ok false.

(** [result['candidates'][0]['content']['parts'][0]['text']] *)
Definition candidate_text (result_ : json) : result json :=
  candidates <- Py.getitem result_ "candidates" ;;
  candidate <- Py.getitem0 candidates ;;
  content <- Py.getitem candidate "content" ;;
  parts <- Py.getitem content "parts" ;;
  part <- Py.getitem0 parts ;;
  Py.getitem part "text".

(** *** The Response Normalizer *)

(** The inner loop over [connections]. *)
Definition connection_list (connections : list json) : list json :=
  flat_map
    (fun conn =>
       match conn with
       | JObj fields =>
           let target := Py.get fields "target" (JStr "") in
           if Py.truthy target then [target] else []
       | JStr _ => [conn]
       | _ => []
       end)
    connections.

Fixpoint validate_strs (vs : list json) : option (list string) :=
  match vs with
  | [] => Some []
  | v :: rest =>
      match validate_str v, validate_strs rest with
      | Some s, Some ss => Some (s :: ss)
      | _, _ => None
      end
  end.

(** [WorkflowNode(id=..., type=..., label=..., x=..., y=..., connections=...)] *)
Definition new_WorkflowNode (id type label x y : json) (connections : list json)
  : result WorkflowNode.t :=
  match validate_str id, validate_str type, validate_str label,
        validate_int x, validate_int y, validate_strs connections with
  | Some id', Some type', Some label', Some x', Some y', Some connections' =>
      Ok (WorkflowNode.mk id' type' label' x' y' connections')
  | _, _, _, _, _, _ => Raise ValidationError
  end.

Definition default_x (path : parse_path) (i : nat) : Z :=
  match path with
  | Primary => 200 + Z.of_nat i * 300
  | Secondary => 100 + Z.of_nat i * 150
  end.

(** One pass of [for i, node_data in enumerate(workflow_data)]: the
    nodes it appends. *)
Definition convert_node (path : parse_path) (i : nat) (node_data : json)
  : result (list WorkflowNode.t) :=
  match node_data with
  | JObj fields =>
      connections <- Py.iter (Py.get fields "connections" (JArr [])) ;;
      n <- new_WorkflowNode
             (Py.get fields "id" (JStr ("node_" ++ PyStr.of_nat i)))
             (Py.get fields "type" (JStr "process"))
             (Py.get fields "label" (JStr ("Step " ++ PyStr.of_nat (i + 1))))
             (Py.get fields "x" (JInt (default_x path i)))
             (Py.get fields "y" (JInt 100))
             (connection_list connections) ;;
      Ok [n]
  | _ => Ok []
  end.

Fixpoint convert_nodes (path : parse_path) (i : nat) (workflow_data : list json)
  : result (list WorkflowNode.t) :=
  match workflow_data with
  | [] => Ok []
  | node_data :: rest =>
      first <- convert_node path i node_data ;;
      others <- convert_nodes path (S i) rest ;;
      Ok (first ++ others)%list
  end.

(** [nodes and len(nodes) > 2] *)
Definition usable (nodes : list WorkflowNode.t) : bool :=
  match nodes with [] => false | _ => true end && (2 <? List.length nodes)%nat.

(** The [workflow] / [nodes] wrappers of the strict parse. *)
Definition unwrap (workflow_data : json) : result json :=
  if Py.dict_has "workflow" workflow_data then Py.getitem workflow_data "workflow"
  else if Py.dict_has "nodes" workflow_data then Py.getitem workflow_data "nodes"
  else Ok workflow_data.

(** The body of the inner [try] of [generate_workflow]. *)
Definition strict_parse (content document_content workflow_type : string)
  : result (list WorkflowNode.t) :=
  workflow_data <- json_loads (cleaned_content content) ;;
  workflow_data <- unwrap workflow_data ;;
  items <- Py.iter workflow_data ;;
  nodes <- convert_nodes Primary 0 items ;;
  if usable nodes then Ok nodes
  else Ok (_create_smart_fallback_workflow document_content workflow_type).

(** The handler of the inner [try]: the span from the first [[] to the
    last []] of the text is parsed again. *)
Definition bracket_parse (content document_content workflow_type : string)
  : result (list WorkflowNode.t) :=
  found <-
    match PyStr.re_search_span "[" "]" content with
    | Some group =>
        except_JSONDecodeError
          (workflow_data <- json_loads group ;;
           items <- Py.iter workflow_data ;;
           nodes <- convert_nodes Secondary 0 items ;;
           if usable nodes then Ok (Some nodes) else Ok None)
          (Ok None)
    | None => Ok None
    end ;;
  match found with
  | Some nodes => Ok nodes
  | None => Ok (_create_smart_fallback_workflow document_content workflow_type)
  end.

(** What [generate_workflow] does with the text of a candidate. *)
Definition normalize (content : json) (document_content workflow_type : string)
  : result (list WorkflowNode.t) :=
  match content with
  | JStr c =>
      except_JSONDecodeError
        (strict_parse c document_content workflow_type)
        (bracket_parse c document_content workflow_type)
  | _ => Raise AttributeError
  end.

(** *** The Workflow Orchestrator *)

(** The branch [response.status == 200] of [generate_workflow]. *)
Definition workflow_of_response (response_text document_content workflow_type : string)
  : result (list WorkflowNode.t) :=
  result_ <- json_loads response_text ;;
  some <- has_candidates result_ ;;
  if (some : bool) then
    content <- candidate_text result_ ;;
    normalize content document_content workflow_type
  else Raise (HTTPException 500 "No workflow generated").

(** One pass of the loop of [generate_workflow]. *)
Definition workflow_attempt (document_content workflow_type : string)
    (server : nat -> upstream) (attempt : nat) : step (list WorkflowNode.t) :=
  let tried :=
    match server attempt with
    | CallRaises e => Raised e
    | Response status response_text =>
        if (status =? 200)%Z then
          of_result (workflow_of_response response_text document_content workflow_type)
        else if (status =? 503)%Z then
          if (attempt <? max_retries - 1)%nat then
            Continue (base_delay * 2 ^ Z.of_nat attempt)
          else
            Raised (HTTPException 503
              "AI service temporarily overloaded. Please try generating workflow again in a moment.")
        else
          Raised (HTTPException status
            ("Workflow generation failed: " ++ PyStr.take 200 response_text))
    end in
  match tried with
  | Raised e =>
      (* except Exception as e *)
      if (attempt <? max_retries - 1)%nat then
        Continue (base_delay * 2 ^ Z.of_nat attempt)
      else
        Raised (HTTPException 500 ("Workflow generation failed: " ++ exn_str e))
  | _ => tried
  end.

(** [generate_workflow(self, document_content, workflow_type)], against
    an upstream that is given by what it does at each attempt. *)
Definition generate_workflow (document_content workflow_type : string)
    (server : nat -> upstream) : list event * outcome (list WorkflowNode.t) :=
  for_attempts (workflow_attempt document_content workflow_type server)
               (seq 0 max_retries).

(** *** The Analysis Orchestrator *)

(** What [analyze_document] does with the text of a candidate: the inner
    [try] and its handler. *)
Definition parse_analysis (content : json) : result json :=
  match content with
  | JStr c =>
      except_JSONDecodeError
        (json_loads (cleaned_content c))
        (found <-
           match PyStr.re_search_span "{" "}" c with
           | Some group =>
               except_JSONDecodeError
                 (parsed_content <- json_loads group ;; Ok (Some parsed_content))
                 (Ok None)
           | None => Ok None
           end ;;
         match found with
         | Some parsed_content => Ok parsed_content
         | None => Ok (JObj [("raw_analysis", JStr c)])
         end)
  | _ => Raise AttributeError
  end.

(** The branch [response.status == 200] of [analyze_document]. *)
Definition analysis_of_response (response_text : string) : result json :=
  result_ <- json_loads response_text ;;
  some <- has_candidates result_ ;;
  if (some : bool) then
    content <- candidate_text result_ ;;
    parse_analysis content
  else Raise (HTTPException 500 "No content generated by Gemini").

(** The last branch on the status ("Other errors - don't retry"): the
    exception that leaves its [try]. *)
Definition upstream_error (status : Z) (response_text : string) : exn :=
  match json_loads response_text with
  | Ok (JObj error_data) =>
      match Py.get error_data "error" (JObj []) with
      | JObj error =>
          let error_message := Py.get error "message" (JStr "Unknown error") in
          HTTPException status ("Gemini API error: " ++ format error_message)
      | _ => AttributeError
      end
  | Ok _ => AttributeError
  | Raise JSONDecodeError =>
      HTTPException status ("Gemini API error: " ++ PyStr.take 200 response_text)
  | Raise e => e
  end.

(** One pass of the loop of [analyze_document]. *)
Definition analysis_attempt (server : nat -> upstream) (attempt : nat) : step json :=
  let tried :=
    match server attempt with
    | CallRaises e => Raised e
    | Response status response_text =>
        if (status =? 200)%Z then
          of_result (analysis_of_response response_text)
        else if (status =? 503)%Z then
          if (attempt <? max_retries - 1)%nat then
            Continue (base_delay * 2 ^ Z.of_nat attempt)
          else
            Raised (HTTPException 503
              "Gemini AI service is currently overloaded. This is a temporary issue with high demand. Please try again in a few minutes. Our system will automatically retry failed requests.")
        else if (status =? 429)%Z then
          if (attempt <? max_retries - 1)%nat then
            Continue (base_delay * 3 ^ Z.of_nat attempt)
          else
            Raised (HTTPException 429
              "Rate limit exceeded. Please wait a moment before trying again.")
        else Raised (upstream_error status response_text)
    end in
  match tried with
  | Raised TimeoutError =>
      (* except asyncio.TimeoutError *)
      if (attempt <? max_retries - 1)%nat then
        Continue (base_delay * 2 ^ Z.of_nat attempt)
      else
        Raised (HTTPException 504
          "Request timeout. The AI service is taking longer than expected. Please try again.")
  | Raised (ClientError _) =>
      (* except aiohttp.ClientError as e *)
      if (attempt <? max_retries - 1)%nat then
        Continue (base_delay * 2 ^ Z.of_nat attempt)
      else
        Raised (HTTPException 503
          "Unable to connect to AI service. Please check your internet connection and try again.")
  | Raised e =>
      (* except Exception as e *)
      Raised (HTTPException 500
        ("An unexpected error occurred during analysis: " ++ exn_str e))
  | _ => tried
  end.

(** [analyze_document(self, document_content, analysis_type)]; the two
    arguments only reach the prompt of the request. *)
Definition analyze_document (document_content analysis_type : string)
    (server : nat -> upstream) : list event * outcome json :=
  for_attempts (analysis_attempt server) (seq 0 max_retries).

(** *** Vocabulary of the properties *)

(** The attempts before [k] all ended in a [continue]. *)
Definition retried {A : Type} (body : nat -> step A) (k : nat) : Prop :=
  forall j, (j < k)%nat -> exists delay, body j = Continue delay.

(** At attempt [k] the upstream answers 200 with a completion whose text
    is [content]. *)
Definition answers (server : nat -> upstream) (k : nat) (content : string) : Prop :=
  exists response_text result_,
    server k = Response 200 response_text
    /\ json_loads response_text = Ok result_
    /\ has_candidates result_ = Ok true
    /\ candidate_text result_ = Ok (JStr content).

(** The bracketed span of [content] is missing or is no JSON. *)
Definition no_bracket_parse (o c : ascii) (content : string) : Prop :=
  PyStr.re_search_span o c content = None
  \/ exists group,
       PyStr.re_search_span o c content = Some group
       /\ json_loads group = Raise JSONDecodeError.

(** The bracketed span of [content] is JSON, but the nodes it converts
    to are too few. *)
Definition too_few_nodes (content : string) : Prop :=
  exists group workflow_data items nodes,
    PyStr.re_search_span "[" "]" content = Some group
    /\ json_loads group = Ok workflow_data
    /\ Py.iter workflow_data = Ok items
    /\ convert_nodes Secondary 0 items = Ok nodes
    /\ usable nodes = false.

(** The text of a completion is of no use as a node list: the strict
    parse fails, and the second parse fails or yields too few nodes. *)
Definition unusable_text (content : string) : Prop :=
  json_loads (cleaned_content content) = Raise JSONDecodeError
  /\ (no_bracket_parse "[" "]" content \/ too_few_nodes content).

(** The number of nodes of a kind. *)
Definition count_kind (kind : string) (nodes : list WorkflowNode.t) : nat :=
  List.length (filter (fun n => WorkflowNode.type n =? kind) nodes).

(** A node list is connection-closed when every target of an edge is
    the id of one of its nodes. *)
Definition connection_closed (nodes : list WorkflowNode.t) : bool :=
  forallb
    (fun n =>
       forallb
         (fun target => existsb (fun m => WorkflowNode.id m =? target) nodes)
         (WorkflowNode.connections n))
    nodes.

(** The keywords that the Fallback Synthesizer looks for, by kind. *)
Definition keywords (workflow_type : string) : list string :=
  if workflow_type =? "user_journey" then
    ["e-commerce"; "shopping"; "cart"; "social"; "post"; "media"]
  else if workflow_type =? "service_blueprint" then
    ["support"; "ticket"; "customer"]
  else if workflow_type =? "feature_flow" then
    ["api"; "integration"]
  else [].

(** Two texts hold the same keywords of a kind, letter case set aside. *)
Definition same_keywords (workflow_type text1 text2 : string) : bool :=
  forallb
    (fun w =>
       Bool.eqb (PyStr.contains w (PyStr.lower text1))
                (PyStr.contains w (PyStr.lower text2)))
    (keywords workflow_type).

(** The graphs that the Fallback Synthesizer holds, each got from a text
    that selects it. *)
Definition reference_graphs : list (list WorkflowNode.t) :=
  Eval vm_compute in
    [ _create_smart_fallback_workflow "cart" "user_journey";
      _create_smart_fallback_workflow "post" "user_journey";
      _create_smart_fallback_workflow "" "user_journey";
      _create_smart_fallback_workflow "ticket" "service_blueprint";
      _create_smart_fallback_workflow "" "service_blueprint";
      _create_smart_fallback_workflow "api" "feature_flow";
      _create_smart_fallback_workflow "" "feature_flow";
      _create_smart_fallback_workflow "" "" ].

(** The e-commerce reference graph. *)
Definition ecommerce_graph : list WorkflowNode.t :=
  Eval vm_compute in _create_smart_fallback_workflow "cart" "user_journey".

(** The items that a parse path of [generate_workflow] hands to the
    conversion loop for a text. *)
Definition parsed_items (path : parse_path) (content : string) (items : list json) : Prop :=
  match path with
  | Primary =>
      exists workflow_data unwrapped,
        json_loads (cleaned_content content) = Ok workflow_data
        /\ unwrap workflow_data = Ok unwrapped
        /\ Py.iter unwrapped = Ok items
  | Secondary =>
      json_loads (cleaned_content content) = Raise JSONDecodeError
      /\ exists group workflow_data,
           PyStr.re_search_span "[" "]" content = Some group
           /\ json_loads group = Ok workflow_data
           /\ Py.iter workflow_data = Ok items
  end.

(** *** Well-formed node objects, and what the specification expects of
    their conversion *)

Definition is_str (v : json) : bool :=
  match v with JStr _ => true | _ => false end.

Definition is_int (v : json) : bool :=
  match v with JInt _ => true | _ => false end.

(** A connection entry whose [target], if it is a dict and has one, is a
    string. *)
Definition entry_ok (conn : json) : bool :=
  match conn with
  | JObj fields =>
      match Py.lookup "target" fields with
      | Some v => is_str v
      | None => true
      end
  | _ => true
  end.

Definition absent_or (ok : json -> bool) (key : string) (fields : list (string * json))
  : bool :=
  match Py.lookup key fields with
  | Some v => ok v
  | None => true
  end.

Definition present_and (ok : json -> bool) (key : string) (fields : list (string * json))
  : bool :=
  match Py.lookup key fields with
  | Some v => ok v
  | None => false
  end.

Definition entries_ok (v : json) : bool :=
  match v with
  | JArr entries => forallb entry_ok entries
  | _ => false
  end.

(** The fields that a node object has are of the type of the model. *)
Definition fields_ok (fields : list (string * json)) : bool :=
  absent_or is_str "id" fields && absent_or is_str "type" fields
  && absent_or is_str "label" fields
  && absent_or is_int "x" fields && absent_or is_int "y" fields
  && absent_or entries_ok "connections" fields.

(** A node object that carries id, type, label, x, y and a connections
    list. *)
Definition well_formed_node (node_data : json) : bool :=
  match node_data with
  | JObj fields =>
      present_and is_str "id" fields && present_and is_str "type" fields
      && present_and is_str "label" fields
      && present_and is_int "x" fields && present_and is_int "y" fields
      && present_and entries_ok "connections" fields
  | _ => false
  end.

(** The id that a node object carries. *)
Definition id_of (node_data : json) : string :=
  match node_data with
  | JObj fields =>
      match Py.lookup "id" fields with
      | Some (JStr s) => s
      | _ => ""
      end
  | _ => ""
  end.

Definition entries_of (node_data : json) : list json :=
  match node_data with
  | JObj fields =>
      match Py.lookup "connections" fields with
      | Some (JArr entries) => entries
      | _ => []
      end
  | _ => []
  end.

(** In the words of the specification: a dict entry contributes its
    [target] string, a bare string contributes itself. *)
Definition stated_target (conn : json) : list string :=
  match conn with
  | JStr s => [s]
  | JObj fields =>
      match Py.lookup "target" fields with
      | Some (JStr t) => [t]
      | _ => []
      end
  | _ => []
  end.

(** The same, with a dict entry whose [target] is empty contributing
    nothing. *)
Definition kept_target (conn : json) : list string :=
  match conn with
  | JStr s => [s]
  | JObj fields =>
      match Py.lookup "target" fields with
      | Some (JStr t) => if t =? "" then [] else [t]
      | _ => []
      end
  | _ => []
  end.

(** The targets that the conversion keeps of the connections of a node
    object. *)
Definition kept_targets (node_data : json) : list string :=
  flat_map kept_target (entries_of node_data).

Definition str_field (key default : string) (fields : list (string * json)) : string :=
  match Py.lookup key fields with
  | Some (JStr s) => s
  | _ => default
  end.

Definition int_field (key : string) (default : Z) (fields : list (string * json)) : Z :=
  match Py.lookup key fields with
  | Some (JInt n) => n
  | _ => default
  end.

(** The node that a node object at index [i] stands for, defaults
    included. *)
Definition as_node (path : parse_path) (i : nat) (node_data : json) : WorkflowNode.t :=
  match node_data with
  | JObj fields =>
      WorkflowNode.mk
        (str_field "id" ("node_" ++ PyStr.of_nat i) fields)
        (str_field "type" "process" fields)
        (str_field "label" ("Step " ++ PyStr.of_nat (i + 1)) fields)
        (int_field "x" (default_x path i) fields)
        (int_field "y" 100 fields)
        (kept_targets node_data)
  | _ => WorkflowNode.mk "" "" "" 0 0 []
  end.

(** An attempt at which the upstream does not answer 200: the call
    raises, or the status is another one. *)
Definition not_ok (u : upstream) : Prop :=
  match u with
  | Response status _ => status <> 200%Z
  | CallRaises _ => True
  end.

(** A JSON value that a [for] loop cannot iterate. *)
Definition is_scalar (v : json) : bool :=
  match v with
  | JNull | JBool _ | JInt _ | JFloat _ => true
  | _ => false
  end.

(** The text of a completion is JSON, as a whole or else in its span
    from the first opening brace to the last closing brace. *)
Definition analysis_parses_to (content : string) (v : json) : Prop :=
  json_loads (cleaned_content content) = Ok v
  \/ (json_loads (cleaned_content content) = Raise JSONDecodeError
      /\ exists group,
           PyStr.re_search_span "{" "}" content = Some group
           /\ json_loads group = Ok v).

(** The classes that the last handler of [analyze_document] gets: all
    but the two that have a handler of their own. *)
Definition unexpected (e : exn) : bool :=
  match e with
  | TimeoutError | ClientError _ => false
  | _ => true
  end.

(** The two details that [analyze_document] gives when the call itself
    keeps failing. *)
Definition timeout_detail : string :=
  "Request timeout. The AI service is taking longer than expected. Please try again.".

Definition unreachable_detail : string :=
  "Unable to connect to AI service. Please check your internet connection and try again.".

(** The call of an attempt fails with a timeout or a connection error. *)
Definition transient (u : upstream) : Prop :=
  u = CallRaises TimeoutError \/ exists msg, u = CallRaises (ClientError msg).

Definition is_object (v : json) : bool :=
  match v with JObj _ => true | _ => false end.

(** What [generate_workflow] takes out of a wrapper object: the value of
    [workflow] if there is one, else the value of [nodes]. *)
Definition wrapped (fields : list (string * json)) : option json :=
  match Py.lookup "workflow" fields with
  | Some v => Some v
  | None => Py.lookup "nodes" fields
  end.

(** [c in s] for one character. *)
Fixpoint has_char (c : ascii) (s : string) : bool :=
  match s with
  | String a s' => Ascii.eqb a c || has_char c s'
  | EmptyString => false
  end.

(** *** Graphs *)

(** No element of [l] comes twice, for an equality test [eqb]. *)
Fixpoint distinct {A : Type} (eqb : A -> A -> bool) (l : list A) : bool :=
  match l with
  | [] => true
  | a :: rest => negb (existsb (eqb a) rest) && distinct eqb rest
  end.

Definition position (n : WorkflowNode.t) : Z * Z :=
  (WorkflowNode.x n, WorkflowNode.y n).

Definition position_eqb (p q : Z * Z) : bool :=
  (fst p =? fst q)%Z && (snd p =? snd q)%Z.

(** The number of edges that the kind of a node calls for: two branches
    at a decision, none at an end, one at a start or a process. *)
Definition degree_ok (n : WorkflowNode.t) : bool :=
  let degree := List.length (WorkflowNode.connections n) in
  let kind := WorkflowNode.type n in
  if kind =? "decision" then (degree =? 2)%nat
  else if kind =? "end" then (degree =? 0)%nat
  else if (kind =? "start") || (kind =? "process") then (degree =? 1)%nat
  else false.

(** [b] can be reached from [a] along the edges of [nodes]. *)
Inductive Reachable (nodes : list WorkflowNode.t) (a : string) : string -> Prop :=
| reach_here : Reachable nodes a a
| reach_step (n : WorkflowNode.t) (b : string) :
    Reachable nodes a (WorkflowNode.id n) ->
    In n nodes ->
    In b (WorkflowNode.connections n) ->
    Reachable nodes a b.

(** The targets of the nodes whose id is in [ids]. *)
Definition successors (nodes : list WorkflowNode.t) (ids : list string) : list string :=
  flat_map
    (fun n =>
       if existsb (String.eqb (WorkflowNode.id n)) ids
       then WorkflowNode.connections n
       else [])
    nodes.

(** [ids] and what is within [fuel] edges of them. *)
Fixpoint closure (fuel : nat) (nodes : list WorkflowNode.t) (ids : list string)
  : list string :=
  match fuel with
  | O => ids
  | S fuel' => closure fuel' nodes (ids ++ successors nodes ids)%list
  end.

Definition within (nodes : list WorkflowNode.t) (a b : string) : bool :=
  existsb (String.eqb b) (closure (List.length nodes) nodes [a]).

(** Every node is within reach of the node "start", and has a node of
    kind end within its reach. *)
Definition well_connected (nodes : list WorkflowNode.t) : bool :=
  forallb
    (fun n =>
       within nodes "start" (WorkflowNode.id n)
       && existsb
            (fun m =>
               (WorkflowNode.type m =? "end")
               && within nodes (WorkflowNode.id n) (WorkflowNode.id m))
            nodes)
    nodes.

(** The keywords of the first bucket of a kind. *)
Definition first_bucket (workflow_type : string) : list string :=
  if workflow_type =? "user_journey" then ["e-commerce"; "shopping"; "cart"]
  else if workflow_type =? "service_blueprint" then ["support"; "ticket"; "customer"]
  else if workflow_type =? "feature_flow" then ["api"; "integration"]
  else [].

Definition in_first_bucket (workflow_type content : string) : bool :=
  existsb (fun w => PyStr.contains w (PyStr.lower content)) (first_bucket workflow_type).

(** *** The document parsers *)

(** The libraries that read the formats: the text of each page of a PDF
    as pdfplumber and as PyPDF2 give it ([None] for a page of which
    [extract_text] returns [None]), the paragraphs and the tables (rows of
    cells) of a DOCX file, and the two decoders of [bytes.decode] that can
    fail. *)
Variable pdfplumber_pages : list Byte.byte -> result (list (option string)).
Variable pypdf2_pages : list Byte.byte -> result (list string).
Variable docx_document :
  list Byte.byte -> result (list string * list (list (list string))).
Variable decode_utf8 : list Byte.byte -> option string.
Variable decode_cp1252 : list Byte.byte -> option string.

(** A [ValueError]: a class that no handler of this file tells apart. *)
Definition ValueError (msg : string) : exn := OtherError msg.

Definition newline : string := String (ascii_of_nat 10) "".

(** [not s] for a str *)
Definition blank (s : string) : bool := s =? "".

(** [DocumentParser.parse_pdf(file_content)] *)
Definition parse_pdf (file_content : list Byte.byte) : result string :=
  let method1 :=
    match pdfplumber_pages file_content with
    | Ok pages =>
        let text :=
          fold_left
            (fun text page_text =>
               match page_text with
               | Some t => if blank t then text else text ++ t ++ newline
               | None => text
               end)
            pages "" in
        if blank (PyStr.strip text) then None else Some (PyStr.strip text)
    | Raise _ => None
    end in
  match method1 with
  | Some text => Ok text
  | None =>
      let method2 :=
        match pypdf2_pages file_content with
        | Ok pages =>
            let text := fold_left (fun text t => text ++ t ++ newline) pages "" in
            if blank (PyStr.strip text) then None else Some (PyStr.strip text)
        | Raise _ => None
        end in
      match method2 with
      | Some text => Ok text
      | None => Raise (ValueError "Could not extract text from PDF")
      end
  end.

(** [DocumentParser.parse_docx(file_content)] *)
Definition parse_docx (file_content : list Byte.byte) : result string :=
  match docx_document file_content with
  | Ok (paragraphs, tables) =>
      let text := fold_left (fun text p => text ++ p ++ newline) paragraphs "" in
      let text :=
        fold_left
          (fun text table =>
             fold_left
               (fun text row =>
                  fold_left (fun text cell => text ++ cell ++ " ") row text ++ newline)
               table text)
          tables text in
      Ok (PyStr.strip text)
  | Raise e => Raise (ValueError ("Could not extract text from DOCX: " ++ exn_str e))
  end.

(** [file_content.decode(encoding)], [None] for a [UnicodeDecodeError];
    latin-1, alias iso-8859-1, gives the character of each byte. *)
Definition decode (encoding : string) (file_content : list Byte.byte) : option string :=
  if encoding =? "utf-8" then decode_utf8 file_content
  else if (encoding =? "latin-1") || (encoding =? "iso-8859-1") then
    Some (string_of_list_byte file_content)
  else if encoding =? "cp1252" then decode_cp1252 file_content
  else None.

Fixpoint try_encodings (encodings : list string) (file_content : list Byte.byte)
  : result string :=
  match encodings with
  | encoding :: rest =>
      match decode encoding file_content with
      | Some text => Ok (PyStr.strip text)
      | None => try_encodings rest file_content
      end
  | [] => Raise (ValueError "Could not decode text file")
  end.

(** [DocumentParser.parse_text(file_content)] *)
Definition parse_text (file_content : list Byte.byte) : result string :=
  match decode "utf-8" file_content with
  | Some text => Ok (PyStr.strip text)
  | None => try_encodings ["latin-1"; "cp1252"; "iso-8859-1"] file_content
  end.

(** *** Who calls *)

(** [AuthService.verify_token(token)]: the payload of the token, or what
    it raises. *)
Variable verify_token : string -> result json.

(** [get_current_user(credentials)]; [credentials] is [None] when the
    request has no bearer token. *)
Definition get_current_user (credentials : option string) : result User.t :=
  let tried : result User.t :=
    match credentials with
    | Some token =>
        payload <- verify_token token ;;
        match payload with
        | JObj fields =>
            let user_id := Py.get fields "user_id" JNull in
            if Py.truthy user_id then
              Raise (HTTPException 503 "Database is disabled. User lookup unavailable.")
            else Raise (HTTPException 401 "Invalid token")
        | _ => Raise AttributeError
        end
    | None => Raise AttributeError
    end in
  match tried with
  | Raise e => Raise (HTTPException 401 (exn_str e))
  | Ok user => Ok user
  end.

(** [get_current_user_optional(credentials)] *)
Definition get_current_user_optional (credentials : option string) : option User.t :=
  match credentials with
  | None => None
  | Some _ =>
      match get_current_user credentials with
      | Ok user => Some user
      | Raise _ => None
      end
  end.

(** pydantic's validation of a value given for a [Dict[str, Any]] field. *)
Variable validate_dict : json -> option json.

(** [current_user.id if current_user else None] *)
Definition id_of_user (current_user : option User.t) : option string :=
  option_map User.id current_user.

(** What a caller gets from a call of a service method: its result, or,
    for a loop that ran out, [None]. *)
Definition awaited {A : Type} (none : A) (o : outcome A) : result A :=
  match o with
  | Returned a => Ok a
  | Failed e => Raise e
  | FellThrough => Ok none
  end.

(** [DocumentAnalysis(...)], with the id and the timestamp that the
    default factories give. *)
Definition new_DocumentAnalysis (uuid now : string)
    (document_content : string) (analysis_result : json) (document_length : nat)
    (analysis_type : string) (user_id : option string) : result DocumentAnalysis.t :=
  match validate_dict analysis_result with
  | Some analysis_result' =>
      Ok (DocumentAnalysis.mk uuid document_content analysis_result' document_length
            analysis_type now user_id)
  | None => Raise ValidationError
  end.

(** [DocumentAnalysisResponse(...)] *)
Definition new_DocumentAnalysisResponse
    (id : string) (analysis_result : json) (document_length : nat)
    (analysis_type timestamp : string) (user_id : option string)
  : result DocumentAnalysisResponse.t :=
  match validate_dict analysis_result with
  | Some analysis_result' =>
      Ok (DocumentAnalysisResponse.mk id analysis_result' document_length
            analysis_type timestamp user_id)
  | None => Raise ValidationError
  end.

(** The route [analyze_document] (POST /analyze-document); [uuid] and
    [now] are what [uuid.uuid4()] and [datetime.utcnow()] give. *)
Definition api_analyze_document
    (request : DocumentAnalysisRequest.t) (current_user : option User.t)
    (uuid now : string) (server : nat -> upstream)
  : list event * result DocumentAnalysisResponse.t :=
  let document_content := DocumentAnalysisRequest.document_content request in
  let analysis_type := DocumentAnalysisRequest.analysis_type request in
  let (trace, o) := analyze_document document_content analysis_type server in
  let tried :=
    analysis_result <- awaited JNull o ;;
    analysis_record <-
      new_DocumentAnalysis uuid now document_content analysis_result
        (String.length document_content) analysis_type (id_of_user current_user) ;;
    new_DocumentAnalysisResponse
      (DocumentAnalysis.id analysis_record)
      analysis_result
      (DocumentAnalysis.document_length analysis_record)
      (DocumentAnalysis.analysis_type analysis_record)
      (DocumentAnalysis.timestamp analysis_record)
      (DocumentAnalysis.user_id analysis_record) in
  (trace,
   match tried with
   | Raise e => Raise (HTTPException 500 ("Analysis failed: " ++ exn_str e))
   | Ok response => Ok response
   end).

(** The choice of a parser by the extension of the file name. *)
Definition parse_by_extension (filename_lower : string) (file_content : list Byte.byte)
  : result string :=
  if endswith ".pdf" filename_lower then parse_pdf file_content
  else if endswith ".docx" filename_lower then parse_docx file_content
  else if endswith ".txt" filename_lower || endswith ".md" filename_lower then
    parse_text file_content
  else
    Raise (HTTPException 400
      "Unsupported file type. Please upload PDF, DOCX, TXT, or MD files.").

(** The route [analyze_document_file] (POST /analyze-document-file). *)
Definition api_analyze_document_file
    (filename : option string) (file_content : list Byte.byte)
    (analysis_type : string) (current_user : option User.t)
    (uuid now : string) (server : nat -> upstream)
  : list event * result FileAnalysis.t :=
  let before : result string :=
    match filename with
    | Some name =>
        document_content <- parse_by_extension (PyStr.lower name) file_content ;;
        if blank (PyStr.strip document_content) then
          Raise (HTTPException 400 "No readable content found in the file")
        else Ok document_content
    | None => Raise AttributeError
    end in
  let (trace, tried) :=
    match before with
    | Ok document_content =>
        let (trace, o) := analyze_document document_content analysis_type server in
        (trace,
         analysis_result <- awaited JNull o ;;
         analysis_record <-
           new_DocumentAnalysis uuid now document_content analysis_result
             (String.length document_content) analysis_type (id_of_user current_user) ;;
         Ok (FileAnalysis.mk
               (DocumentAnalysis.id analysis_record)
               filename
               analysis_result
               (String.length document_content)
               analysis_type
               (DocumentAnalysis.timestamp analysis_record)
               (DocumentAnalysis.user_id analysis_record)))
    | Raise e => ([], Raise e)
    end in
  (trace,
   match tried with
   | Raise (HTTPException status detail) => Raise (HTTPException status detail)
   | Raise e => Raise (HTTPException 500 ("File analysis failed: " ++ exn_str e))
   | Ok response => Ok response
   end).

(** [Workflow(...)]; a list of nodes is what the field takes. *)
Definition new_Workflow (uuid now : string)
    (document_content : string) (workflow_nodes : option (list WorkflowNode.t))
    (workflow_type : string) (document_length : nat) (user_id : option string)
  : result Workflow.t :=
  match workflow_nodes with
  | Some nodes =>
      Ok (Workflow.mk uuid document_content nodes workflow_type document_length
            now user_id)
  | None => Raise ValidationError
  end.

(** The route [generate_workflow] (POST /generate-workflow). *)
Definition api_generate_workflow
    (request : WorkflowRequest.t) (current_user : option User.t)
    (uuid now : string) (server : nat -> upstream)
  : list event * result WorkflowResponse.t :=
  let document_content := WorkflowRequest.document_content request in
  let workflow_type := WorkflowRequest.workflow_type request in
  let (trace, o) := generate_workflow document_content workflow_type server in
  let tried : result WorkflowResponse.t :=
    workflow_nodes <-
      match o with
      | Returned nodes => Ok (Some nodes)
      | Failed e => Raise e
      | FellThrough => Ok None
      end ;;
    workflow_record <-
      new_Workflow uuid now document_content workflow_nodes workflow_type
        (String.length document_content) (id_of_user current_user) ;;
    Raise (HTTPException 503 "Database is disabled. Workflow save unavailable.") in
  (trace,
   match tried with
   | Raise e => Raise (HTTPException 500 ("Workflow generation failed: " ++ exn_str e))
   | Ok response => Ok response
   end).

(** *** The loop *)

(** A pass that does not [continue] ends the loop, after as many
    requests as passes. *)
Lemma for_attempts_settles {A : Type} (body : nat -> step A) :
  forall len start k,
    (k < len)%nat ->
    (forall j, (j < k)%nat -> exists delay, body (start + j)%nat = Continue delay) ->
    (forall delay, body (start + k)%nat <> Continue delay) ->
    exists trace,
      for_attempts body (seq start len)
      = (trace,
         match body (start + k)%nat with
         | Return a => Returned a
         | Raised e => Failed e
         | Continue _ => FellThrough
         end)
      /\ attempts_made trace = S k.
Proof.
  induction len as [|len IH]; intros start k Hk Hprev Hlast; [lia|].
  destruct k as [|k].
  - rewrite Nat.add_0_r in *. simpl.
    destruct (body start) as [a|e|d] eqn:Hb.
    + eexists; split; reflexivity.
    + eexists; split; reflexivity.
    + exfalso; apply (Hlast d); reflexivity.
  - simpl. destruct (Hprev 0%nat ltac:(lia)) as [d Hd].
    rewrite Nat.add_0_r in Hd. rewrite Hd.
    destruct (IH (S start) k ltac:(lia)) as [trace [Hrun Hcount]].
    + intros j Hj. destruct (Hprev (S j) ltac:(lia)) as [d' Hd'].
      exists d'. rewrite <- Hd'. f_equal; lia.
    + intros d' Hd'. apply (Hlast d'). rewrite <- Hd'. f_equal; lia.
    + rewrite Hrun. replace (S start + k)%nat with (start + S k)%nat by lia.
      eexists; split; [reflexivity|].
      unfold attempts_made in *. simpl. rewrite Hcount. reflexivity.
Qed.

Lemma for_attempts_returns {A : Type} (body : nat -> step A) (k : nat) (a : A) :
  (k < max_retries)%nat ->
  retried body k ->
  body k = Return a ->
  exists trace,
    for_attempts body (seq 0 max_retries) = (trace, Returned a)
    /\ attempts_made trace = S k.
Proof.
  intros Hk Hprev Hlast.
  destruct (for_attempts_settles body max_retries 0 k Hk) as [trace [Hrun Hcount]].
  - intros j Hj. apply (Hprev j Hj).
  - simpl. rewrite Hlast. discriminate.
  - simpl in Hrun. rewrite Hlast in Hrun. exists trace. split; assumption.
Qed.

Lemma for_attempts_fails {A : Type} (body : nat -> step A) (k : nat) (e : exn) :
  (k < max_retries)%nat ->
  retried body k ->
  body k = Raised e ->
  exists trace,
    for_attempts body (seq 0 max_retries) = (trace, Failed e)
    /\ attempts_made trace = S k.
Proof.
  intros Hk Hprev Hlast.
  destruct (for_attempts_settles body max_retries 0 k Hk) as [trace [Hrun Hcount]].
  - intros j Hj. apply (Hprev j Hj).
  - simpl. rewrite Hlast. discriminate.
  - simpl in Hrun. rewrite Hlast in Hrun. exists trace. split; assumption.
Qed.

(** *** The Fallback Synthesizer *)

Lemma fallback_in_reference (content workflow_type : string) :
  In (_create_smart_fallback_workflow content workflow_type) reference_graphs.
Proof.
  unfold _create_smart_fallback_workflow.
  repeat match goal with
         | |- context [if ?b then _ else _] => destruct b
         end;
    unfold reference_graphs;
    repeat (first [left; reflexivity | right]).
Qed.

(** What holds of each reference graph holds of every fallback. *)
Lemma fallback_forall (P : list WorkflowNode.t -> bool) :
  forallb P reference_graphs = true ->
  forall content workflow_type,
    P (_create_smart_fallback_workflow content workflow_type) = true.
Proof.
  intros HP content workflow_type.
  rewrite forallb_forall in HP. apply HP. apply fallback_in_reference.
Qed.

Lemma connection_closed_spec (nodes : list WorkflowNode.t) :
  connection_closed nodes = true <->
  forall n target,
    In n nodes -> In target (WorkflowNode.connections n) ->
    exists m, In m nodes /\ WorkflowNode.id m = target.
Proof.
  unfold connection_closed. rewrite forallb_forall. split.
  - intros H n target Hn Ht.
    specialize (H n Hn). rewrite forallb_forall in H.
    specialize (H target Ht). apply existsb_exists in H.
    destruct H as [m [Hm He]]. exists m. split; [assumption|].
    apply String.eqb_eq. assumption.
  - intros H n Hn. apply forallb_forall. intros target Ht.
    destruct (H n target Hn Ht) as [m [Hm He]].
    apply existsb_exists. exists m. split; [assumption|].
    apply String.eqb_eq. assumption.
Qed.

Lemma same_keywords_lower (workflow_type text1 text2 : string) :
  PyStr.lower text1 = PyStr.lower text2 ->
  same_keywords workflow_type text1 text2 = true.
Proof.
  intros H. unfold same_keywords. rewrite H.
  apply forallb_forall. intros w _. apply Bool.eqb_reflx.
Qed.

Lemma fallback_depends_on_keywords (workflow_type text1 text2 : string) :
  same_keywords workflow_type text1 text2 = true ->
  _create_smart_fallback_workflow text1 workflow_type
  = _create_smart_fallback_workflow text2 workflow_type.
Proof.
  unfold same_keywords, keywords, _create_smart_fallback_workflow.
  cbv zeta.
  destruct (workflow_type =? "user_journey");
    [|destruct (workflow_type =? "service_blueprint");
      [|destruct (workflow_type =? "feature_flow")]];
    cbn [forallb]; intros H;
    repeat (apply andb_prop in H; let E := fresh "E" in destruct H as [E H];
            apply Bool.eqb_prop in E; rewrite E);
    reflexivity.
Qed.

(** C9. The Fallback Synthesizer is a function of its two arguments, and
    the text counts only through the keywords that its lower-casing
    holds: for one kind, two texts that are identical, or that differ in
    letter case only, or that just hold the same keywords of the kind,
    get the same graph (ids, kinds, labels, coordinates and edges). *)
Theorem fallback_pure_and_case_insensitive (workflow_type text1 text2 : string) :
  text1 = text2
  \/ PyStr.lower text1 = PyStr.lower text2
  \/ same_keywords workflow_type text1 text2 = true ->
  _create_smart_fallback_workflow text1 workflow_type
  = _create_smart_fallback_workflow text2 workflow_type.
Proof.
  intros [H | [H | H]].
  - rewrite H. reflexivity.
  - apply fallback_depends_on_keywords, same_keywords_lower, H.
  - apply fallback_depends_on_keywords, H.
Qed.

(** C10. Every graph of the Fallback Synthesizer is connection-closed:
    each id in a connections list is the id of a node of the same
    graph. *)
Theorem fallback_connection_closed (content workflow_type : string) :
  connection_closed (_create_smart_fallback_workflow content workflow_type) = true.
Proof.
  apply (fallback_forall connection_closed). vm_compute. reflexivity.
Qed.

(** *** From the text of a completion to the result of the call *)

Lemma bind_Ok {A B : Type} (r : result A) (k : A -> result B) (b : B) :
  bind r k = Ok b -> exists a, r = Ok a /\ k a = Ok b.
Proof.
  destruct r as [a|e]; simpl; intros H; [exists a; auto | discriminate].
Qed.

Lemma except_JSONDecodeError_Ok {A : Type} (r handler : result A) (a : A) :
  except_JSONDecodeError r handler = Ok a ->
  r = Ok a \/ (r = Raise JSONDecodeError /\ handler = Ok a).
Proof.
  destruct r as [a'|e]; simpl; [auto|].
  destruct e; auto; discriminate.
Qed.

Lemma usable_length (nodes : list WorkflowNode.t) :
  usable nodes = true <-> (2 < List.length nodes)%nat.
Proof.
  unfold usable. rewrite andb_true_iff, Nat.ltb_lt.
  destruct nodes; simpl; split; intros; try lia; intuition (try discriminate; auto).
Qed.

Lemma fallback_length (content workflow_type : string) :
  (5 <= List.length (_create_smart_fallback_workflow content workflow_type))%nat.
Proof.
  apply Nat.leb_le.
  apply (fallback_forall (fun g => (5 <=? List.length g)%nat)). reflexivity.
Qed.

Lemma fallback_one_start (content workflow_type : string) :
  count_kind "start" (_create_smart_fallback_workflow content workflow_type) = 1%nat.
Proof.
  apply Nat.eqb_eq.
  apply (fallback_forall (fun g => (count_kind "start" g =? 1)%nat)). reflexivity.
Qed.

Lemma fallback_some_end (content workflow_type : string) :
  (1 <= count_kind "end" (_create_smart_fallback_workflow content workflow_type))%nat.
Proof.
  apply Nat.leb_le.
  apply (fallback_forall (fun g => (1 <=? count_kind "end" g)%nat)). reflexivity.
Qed.

(** An unusable text is answered with the fallback graph. *)
Lemma normalize_unusable (content document_content workflow_type : string) :
  unusable_text content ->
  normalize (JStr content) document_content workflow_type
  = Ok (_create_smart_fallback_workflow document_content workflow_type).
Proof.
  intros [Hstrict Hsecond]. unfold normalize, strict_parse.
  rewrite Hstrict. simpl. unfold bracket_parse.
  destruct Hsecond as [[Hnone | [group [Hsome Hload]]]
                      | [group [data [items [nodes [Hsome [Hload [Hiter [Hconv Hfew]]]]]]]]].
  - rewrite Hnone. reflexivity.
  - rewrite Hsome, Hload. reflexivity.
  - rewrite Hsome, Hload. simpl. rewrite Hiter. simpl. rewrite Hconv. simpl.
    rewrite Hfew. reflexivity.
Qed.

(** A pass that gets a completion whose text normalises returns. *)
Lemma workflow_attempt_returns
    (document_content workflow_type : string) (server : nat -> upstream)
    (k : nat) (content : string) (nodes : list WorkflowNode.t) :
  answers server k content ->
  normalize (JStr content) document_content workflow_type = Ok nodes ->
  workflow_attempt document_content workflow_type server k = Return nodes.
Proof.
  intros [response_text [result_ [Hresp [Hload [Hhas Htext]]]]] Hnorm.
  unfold workflow_attempt. rewrite Hresp. simpl.
  unfold workflow_of_response. rewrite Hload. simpl. rewrite Hhas. simpl.
  rewrite Htext. cbn [bind]. rewrite Hnorm. reflexivity.
Qed.

Lemma generate_workflow_returns
    (document_content workflow_type : string) (server : nat -> upstream)
    (k : nat) (content : string) (nodes : list WorkflowNode.t) :
  (k < max_retries)%nat ->
  retried (workflow_attempt document_content workflow_type server) k ->
  answers server k content ->
  normalize (JStr content) document_content workflow_type = Ok nodes ->
  exists trace,
    generate_workflow document_content workflow_type server = (trace, Returned nodes)
    /\ attempts_made trace = S k.
Proof.
  intros Hk Hprev Hans Hnorm. unfold generate_workflow.
  apply for_attempts_returns; [assumption | assumption |].
  apply (workflow_attempt_returns _ _ _ _ content); assumption.
Qed.

(** C1 (as amended). When the text of the completion is unusable (the
    strict parse fails, and the bracket parse fails or yields too few
    nodes), [generate_workflow] does not raise: it returns the fallback
    graph for its two arguments, and that graph has at least 5 nodes,
    exactly one of kind start and at least one of kind end. *)
Theorem unusable_text_gives_fallback
    (document_content workflow_type : string) (server : nat -> upstream)
    (k : nat) (content : string) :
  (k < max_retries)%nat ->
  retried (workflow_attempt document_content workflow_type server) k ->
  answers server k content ->
  unusable_text content ->
  let graph := _create_smart_fallback_workflow document_content workflow_type in
  (exists trace,
      generate_workflow document_content workflow_type server = (trace, Returned graph))
  /\ (5 <= List.length graph)%nat
  /\ count_kind "start" graph = 1%nat
  /\ (1 <= count_kind "end" graph)%nat.
Proof.
  intros Hk Hprev Hans Hbad graph. split; [|split; [|split]].
  - destruct (generate_workflow_returns document_content workflow_type server
                k content graph Hk Hprev Hans) as [trace [Hrun _]].
    + apply normalize_unusable. assumption.
    + exists trace. assumption.
  - apply fallback_length.
  - apply fallback_one_start.
  - apply fallback_some_end.
Qed.

Lemma ecommerce_selected (document_content : string) :
  PyStr.contains "e-commerce" (PyStr.lower document_content)
  || PyStr.contains "shopping" (PyStr.lower document_content)
  || PyStr.contains "cart" (PyStr.lower document_content) = true ->
  _create_smart_fallback_workflow document_content "user_journey" = ecommerce_graph.
Proof.
  intros H. unfold _create_smart_fallback_workflow. cbv zeta.
  rewrite H. reflexivity.
Qed.

(** C2. For the kind user_journey and a document whose lower-casing
    holds e-commerce, shopping or cart, an unusable completion text is
    answered with the e-commerce reference graph: 11 nodes, whose ids
    are start, browse, select, cart, auth_check, login, payment,
    success_check, retry, confirmation, end, in this order. *)
Theorem ecommerce_document_gives_reference_graph
    (document_content : string) (server : nat -> upstream)
    (k : nat) (content : string) :
  PyStr.contains "e-commerce" (PyStr.lower document_content)
  || PyStr.contains "shopping" (PyStr.lower document_content)
  || PyStr.contains "cart" (PyStr.lower document_content) = true ->
  (k < max_retries)%nat ->
  retried (workflow_attempt document_content "user_journey" server) k ->
  answers server k content ->
  unusable_text content ->
  exists trace nodes,
    generate_workflow document_content "user_journey" server = (trace, Returned nodes)
    /\ nodes = ecommerce_graph
    /\ List.length nodes = 11%nat
    /\ map WorkflowNode.id nodes
       = ["start"; "browse"; "select"; "cart"; "auth_check"; "login"; "payment";
          "success_check"; "retry"; "confirmation"; "end"].
Proof.
  intros Hkey Hk Hprev Hans Hbad.
  destruct (generate_workflow_returns document_content "user_journey" server
              k content ecommerce_graph Hk Hprev Hans) as [trace [Hrun _]].
  - rewrite <- (ecommerce_selected document_content Hkey).
    apply normalize_unusable. assumption.
  - exists trace, ecommerce_graph. repeat split; assumption || reflexivity.
Qed.

(** *** What a returned node list can be *)

Lemma for_attempts_Returned {A : Type} (body : nat -> step A) :
  forall attempts trace a,
    for_attempts body attempts = (trace, Returned a) ->
    exists k, In k attempts /\ body k = Return a.
Proof.
  induction attempts as [|attempt rest IH]; simpl; intros trace a H.
  - discriminate.
  - destruct (body attempt) as [a'|e|d] eqn:Hb.
    + inversion H; subst. exists attempt. auto.
    + discriminate.
    + destruct (for_attempts body rest) as [trace' o] eqn:Hrest.
      inversion H; subst.
      destruct (IH trace' a eq_refl) as [k [Hin Hk]].
      exists k. auto.
Qed.

Lemma workflow_attempt_Return
    (document_content workflow_type : string) (server : nat -> upstream)
    (k : nat) (nodes : list WorkflowNode.t) :
  workflow_attempt document_content workflow_type server k = Return nodes ->
  exists response_text,
    server k = Response 200 response_text
    /\ workflow_of_response response_text document_content workflow_type = Ok nodes.
Proof.
  unfold workflow_attempt.
  destruct (server k) as [status response_text|e].
  - destruct (status =? 200)%Z eqn:H200.
    + apply Z.eqb_eq in H200. subst status.
      destruct (workflow_of_response response_text document_content workflow_type)
        as [nodes'|e] eqn:Hresp; cbn [of_result].
      * intros H; inversion H; subst. exists response_text. split; [reflexivity | assumption].
      * destruct (k <? max_retries - 1)%nat; discriminate.
    + destruct (status =? 503)%Z; destruct (k <? max_retries - 1)%nat; discriminate.
  - destruct (k <? max_retries - 1)%nat; discriminate.
Qed.

(** Only [json.loads] raises [JSONDecodeError]. *)
Lemma convert_node_not_decode (path : parse_path) (i : nat) (node_data : json) :
  convert_node path i node_data <> Raise JSONDecodeError.
Proof.
  unfold convert_node, new_WorkflowNode.
  destruct node_data; try discriminate.
  destruct (Py.iter _) as [cs|e] eqn:Hiter; simpl.
  - repeat match goal with
           | |- context [match ?o with Some _ => _ | None => _ end] => destruct o
           end; discriminate.
  - unfold Py.iter in Hiter.
    destruct (Py.get _ _ _); inversion Hiter; discriminate.
Qed.

Lemma convert_nodes_not_decode (path : parse_path) (items : list json) :
  forall i, convert_nodes path i items <> Raise JSONDecodeError.
Proof.
  induction items as [|node_data rest IH]; intros i; simpl; [discriminate|].
  destruct (convert_node path i node_data) as [first|e] eqn:Hfirst; simpl.
  - destruct (convert_nodes path (S i) rest) as [others|e] eqn:Hrest; simpl.
    + discriminate.
    + intros H. inversion H; subst. apply (IH (S i)). assumption.
  - intros H. inversion H; subst.
    apply (convert_node_not_decode path i node_data). assumption.
Qed.

Lemma unwrap_not_decode (workflow_data : json) :
  unwrap workflow_data <> Raise JSONDecodeError.
Proof.
  unfold unwrap, Py.dict_has, Py.getitem.
  destruct workflow_data; try discriminate.
  destruct (Py.lookup "workflow" fields); [discriminate|].
  destruct (Py.lookup "nodes" fields); discriminate.
Qed.

Lemma iter_not_decode (v : json) : Py.iter v <> Raise JSONDecodeError.
Proof. destruct v; discriminate. Qed.

Lemma strict_parse_decode (c document_content workflow_type : string) :
  strict_parse c document_content workflow_type = Raise JSONDecodeError ->
  json_loads (cleaned_content c) = Raise JSONDecodeError.
Proof.
  unfold strict_parse.
  destruct (json_loads (cleaned_content c)) as [data|e]; simpl;
    [|intros H; inversion H; reflexivity].
  destruct (unwrap data) as [u|e] eqn:Hun; simpl.
  - destruct (Py.iter u) as [items|e] eqn:Hiter; simpl.
    + destruct (convert_nodes Primary 0 items) as [ns|e] eqn:Hconv; simpl.
      * destruct (usable ns); discriminate.
      * intros H. inversion H; subst.
        exfalso. apply (convert_nodes_not_decode Primary items 0). assumption.
    + intros H. inversion H; subst. exfalso. apply (iter_not_decode u). assumption.
  - intros H. inversion H; subst. exfalso. apply (unwrap_not_decode data). assumption.
Qed.

Lemma normalize_Ok (content : json) (document_content workflow_type : string)
    (nodes : list WorkflowNode.t) :
  normalize content document_content workflow_type = Ok nodes ->
  usable nodes = true
  /\ (nodes = _create_smart_fallback_workflow document_content workflow_type
      \/ exists path c items,
           content = JStr c /\ parsed_items path c items
           /\ convert_nodes path 0 items = Ok nodes).
Proof.
  assert (Hfb : usable (_create_smart_fallback_workflow document_content workflow_type)
                = true).
  { apply usable_length. pose proof (fallback_length document_content workflow_type). lia. }
  unfold normalize. destruct content as [| | | |c| |]; try discriminate.
  intros H. apply except_JSONDecodeError_Ok in H.
  destruct H as [H | [Hstrict H]].
  - unfold strict_parse in H.
    apply bind_Ok in H. destruct H as [data [Hload H]].
    apply bind_Ok in H. destruct H as [unwrapped [Hun H]].
    apply bind_Ok in H. destruct H as [items [Hiter H]].
    apply bind_Ok in H. destruct H as [nodes' [Hconv H]].
    destruct (usable nodes') eqn:Hus; inversion H; subst.
    + split; [assumption|]. right. exists Primary, c, items.
      split; [reflexivity|]. split; [|assumption].
      exists data, unwrapped. auto.
    + split; [assumption|]. left. reflexivity.
  - apply strict_parse_decode in Hstrict.
    unfold bracket_parse in H.
    apply bind_Ok in H. destruct H as [found [Hfound H]].
    destruct found as [nodes'|]; inversion H; subst; [|split; [assumption | left; reflexivity]].
    destruct (PyStr.re_search_span "[" "]" c) as [group|] eqn:Hsearch; [|discriminate].
    apply except_JSONDecodeError_Ok in Hfound.
    destruct Hfound as [Hfound | [_ Hfound]]; [|discriminate].
    apply bind_Ok in Hfound. destruct Hfound as [data [Hload Hfound]].
    apply bind_Ok in Hfound. destruct Hfound as [items [Hiter Hfound]].
    apply bind_Ok in Hfound. destruct Hfound as [nodes' [Hconv Hfound]].
    destruct (usable nodes') eqn:Hus; inversion Hfound; subst.
    split; [assumption|]. right. exists Secondary, c, items.
    split; [reflexivity|]. split; [|assumption].
    split; [assumption|]. exists group, data. auto.
Qed.

Lemma workflow_of_response_Ok
    (response_text document_content workflow_type : string)
    (nodes : list WorkflowNode.t) :
  workflow_of_response response_text document_content workflow_type = Ok nodes ->
  exists content, normalize content document_content workflow_type = Ok nodes.
Proof.
  unfold workflow_of_response. intros H.
  apply bind_Ok in H. destruct H as [result_ [_ H]].
  apply bind_Ok in H. destruct H as [some [_ H]].
  destruct some; [|discriminate].
  apply bind_Ok in H. destruct H as [content [_ H]].
  exists content. assumption.
Qed.

(** A text whose items convert to two nodes or fewer is answered with
    the fallback graph, on either path. *)
Lemma normalize_too_few
    (path : parse_path) (content document_content workflow_type : string)
    (items : list json) (nodes : list WorkflowNode.t) :
  parsed_items path content items ->
  convert_nodes path 0 items = Ok nodes ->
  (List.length nodes <= 2)%nat ->
  normalize (JStr content) document_content workflow_type
  = Ok (_create_smart_fallback_workflow document_content workflow_type).
Proof.
  intros Hparsed Hconv Hfew.
  assert (Hus : usable nodes = false).
  { destruct (usable nodes) eqn:E; [|reflexivity].
    apply usable_length in E. lia. }
  destruct path; simpl in Hparsed.
  - destruct Hparsed as [data [unwrapped [Hload [Hun Hiter]]]].
    unfold normalize, strict_parse.
    rewrite Hload. cbn [bind]. rewrite Hun. cbn [bind]. rewrite Hiter. cbn [bind].
    rewrite Hconv. cbn [bind]. rewrite Hus. reflexivity.
  - destruct Hparsed as [Hdec [group [data [Hsearch [Hload Hiter]]]]].
    apply normalize_unusable. split; [assumption|]. right.
    exists group, data, items, nodes. auto 6.
Qed.

(** A text whose items convert to more than two nodes is answered with
    those nodes, on either path: nothing looks at their kinds. *)
Lemma normalize_enough
    (path : parse_path) (content document_content workflow_type : string)
    (items : list json) (nodes : list WorkflowNode.t) :
  parsed_items path content items ->
  convert_nodes path 0 items = Ok nodes ->
  (2 < List.length nodes)%nat ->
  normalize (JStr content) document_content workflow_type = Ok nodes.
Proof.
  intros Hparsed Hconv Hmany.
  assert (Hus : usable nodes = true) by (apply usable_length; assumption).
  destruct path; simpl in Hparsed.
  - destruct Hparsed as [data [unwrapped [Hload [Hun Hiter]]]].
    unfold normalize, strict_parse.
    rewrite Hload. cbn [bind]. rewrite Hun. cbn [bind]. rewrite Hiter. cbn [bind].
    rewrite Hconv. cbn [bind]. rewrite Hus. reflexivity.
  - destruct Hparsed as [Hdec [group [data [Hsearch [Hload Hiter]]]]].
    unfold normalize, strict_parse.
    rewrite Hdec. simpl. unfold bracket_parse.
    rewrite Hsearch, Hload. simpl. rewrite Hiter. simpl. rewrite Hconv. simpl.
    rewrite Hus. reflexivity.
Qed.

(** C3 (as amended). Every node list that [generate_workflow] returns
    has more than 2 nodes, and it is the fallback graph or a list that
    one of the two parse paths converted; the fallback graph has exactly
    one node of kind start and at least one of kind end; a converted
    list of 2 nodes or fewer is not returned, the fallback graph takes
    its place.  A converted list of more than 2 nodes is returned
    whatever the kinds of its nodes: the normalizer answers with that
    list, and [generate_workflow] returns it at the attempt that
    received the text. *)
Theorem returned_nodes_invariant :
  (forall document_content workflow_type server trace nodes,
      generate_workflow document_content workflow_type server = (trace, Returned nodes) ->
      (2 < List.length nodes)%nat
      /\ (nodes = _create_smart_fallback_workflow document_content workflow_type
          \/ exists path content items,
               parsed_items path content items
               /\ convert_nodes path 0 items = Ok nodes))
  /\ (forall document_content workflow_type,
         let graph := _create_smart_fallback_workflow document_content workflow_type in
         count_kind "start" graph = 1%nat /\ (1 <= count_kind "end" graph)%nat)
  /\ (forall path content items nodes document_content workflow_type,
         parsed_items path content items ->
         convert_nodes path 0 items = Ok nodes ->
         (List.length nodes <= 2)%nat ->
         normalize (JStr content) document_content workflow_type
         = Ok (_create_smart_fallback_workflow document_content workflow_type))
  /\ (forall path content items nodes document_content workflow_type,
         parsed_items path content items ->
         convert_nodes path 0 items = Ok nodes ->
         (2 < List.length nodes)%nat ->
         normalize (JStr content) document_content workflow_type = Ok nodes)
  /\ (forall path content items nodes document_content workflow_type server k,
         (k < max_retries)%nat ->
         retried (workflow_attempt document_content workflow_type server) k ->
         answers server k content ->
         parsed_items path content items ->
         convert_nodes path 0 items = Ok nodes ->
         (2 < List.length nodes)%nat ->
         exists trace,
           generate_workflow document_content workflow_type server
           = (trace, Returned nodes)
           /\ attempts_made trace = S k).
Proof.
  split; [|split; [|split; [|split]]].
  - intros document_content workflow_type server trace nodes Hrun.
    unfold generate_workflow in Hrun.
    apply for_attempts_Returned in Hrun. destruct Hrun as [k [_ Hk]].
    apply workflow_attempt_Return in Hk. destruct Hk as [response_text [_ Hresp]].
    apply workflow_of_response_Ok in Hresp. destruct Hresp as [content Hnorm].
    apply normalize_Ok in Hnorm. destruct Hnorm as [Hus Hfrom].
    split; [apply usable_length; assumption|].
    destruct Hfrom as [Hfb | [path [c [items [_ [Hparsed Hconv]]]]]].
    + left. assumption.
    + right. exists path, c, items. split; assumption.
  - intros document_content workflow_type graph. split.
    + apply fallback_one_start.
    + apply fallback_some_end.
  - intros path content items nodes document_content workflow_type.
    apply normalize_too_few.
  - intros path content items nodes document_content workflow_type.
    apply normalize_enough.
  - intros path content items nodes document_content workflow_type server k
      Hk Hprev Hans Hparsed Hconv Hmany.
    apply (generate_workflow_returns _ _ _ _ content); try assumption.
    apply (normalize_enough path _ _ _ items); assumption.
Qed.

(** *** Statuses other than 200 *)

Lemma json_loads_raises (s : string) (e : exn) :
  json_loads s = Raise e -> e = JSONDecodeError.
Proof.
  unfold json_loads. destruct (parse_json s); intros H; inversion H; reflexivity.
Qed.

(** A pass of [generate_workflow] that gets a 503: the [raise] of the
    last attempt is caught by [except Exception] like any other. *)
Lemma workflow_attempt_503
    (document_content workflow_type : string) (server : nat -> upstream)
    (k : nat) (response_text : string) :
  server k = Response 503 response_text ->
  workflow_attempt document_content workflow_type server k
  = if (k <? max_retries - 1)%nat then Continue (base_delay * 2 ^ Z.of_nat k)
    else Raised (HTTPException 500
           ("Workflow generation failed: "
            ++ exn_str (HTTPException 503
                 "AI service temporarily overloaded. Please try generating workflow again in a moment."))).
Proof.
  intros H. unfold workflow_attempt. rewrite H.
  change (503 =? 200)%Z with false. change (503 =? 503)%Z with true. cbv iota.
  destruct (k <? max_retries - 1)%nat; reflexivity.
Qed.

(** A pass of [generate_workflow] that gets another status than 200 and
    503. *)
Lemma workflow_attempt_other
    (document_content workflow_type : string) (server : nat -> upstream)
    (k : nat) (status : Z) (response_text : string) :
  status <> 200%Z -> status <> 503%Z ->
  server k = Response status response_text ->
  workflow_attempt document_content workflow_type server k
  = if (k <? max_retries - 1)%nat then Continue (base_delay * 2 ^ Z.of_nat k)
    else Raised (HTTPException 500
           ("Workflow generation failed: "
            ++ exn_str (HTTPException status
                 ("Workflow generation failed: " ++ PyStr.take 200 response_text)))).
Proof.
  intros H200 H503 H. unfold workflow_attempt. rewrite H.
  apply Z.eqb_neq in H200, H503. rewrite H200, H503.
  destruct (k <? max_retries - 1)%nat; reflexivity.
Qed.

Lemma upstream_error_class (status : Z) (response_text : string) :
  upstream_error status response_text = AttributeError
  \/ exists detail, upstream_error status response_text = HTTPException status detail.
Proof.
  unfold upstream_error.
  destruct (json_loads response_text) as [v|e] eqn:Hload.
  - destruct v; auto.
    destruct (Py.get fields "error" (JObj [])); auto.
    right. eexists. reflexivity.
  - apply json_loads_raises in Hload. subst e. right. eexists. reflexivity.
Qed.

(** A pass of [analyze_document] that gets another status than 200, 503
    and 429: the exception of the last branch is caught by
    [except Exception]. *)
Lemma analysis_attempt_other
    (server : nat -> upstream) (k : nat) (status : Z) (response_text : string) :
  status <> 200%Z -> status <> 503%Z -> status <> 429%Z ->
  server k = Response status response_text ->
  analysis_attempt server k
  = Raised (HTTPException 500
      ("An unexpected error occurred during analysis: "
       ++ exn_str (upstream_error status response_text))).
Proof.
  intros H200 H503 H429 H. unfold analysis_attempt. rewrite H.
  apply Z.eqb_neq in H200, H503, H429. rewrite H200, H503, H429.
  destruct (upstream_error_class status response_text) as [E | [detail E]];
    rewrite E; reflexivity.
Qed.

(** C4. What [generate_workflow] does when the upstream answers 503 at
    each of the three attempts: three requests and no fallback graph,
    but the error that reaches the caller has status 500, its detail
    being the text of the 503 error that line 703 raised. *)
Theorem three_503_end_in_500
    (document_content workflow_type : string) (server : nat -> upstream) :
  (forall k, (k < max_retries)%nat -> exists response_text,
        server k = Response 503 response_text) ->
  exists trace,
    generate_workflow document_content workflow_type server
    = (trace,
       Failed (HTTPException 500
         ("Workflow generation failed: "
          ++ exn_str (HTTPException 503
               "AI service temporarily overloaded. Please try generating workflow again in a moment."))))
    /\ attempts_made trace = 3%nat.
Proof.
  intros H. unfold generate_workflow.
  apply (for_attempts_fails _ 2).
  - unfold max_retries. lia.
  - intros j Hj. destruct (H j) as [text Hs]; [unfold max_retries; lia|].
    rewrite (workflow_attempt_503 _ _ _ _ _ Hs).
    destruct j as [|[|j]]; [eexists; reflexivity | eexists; reflexivity | lia].
  - destruct (H 2%nat) as [text Hs]; [unfold max_retries; lia|].
    rewrite (workflow_attempt_503 _ _ _ _ _ Hs). reflexivity.
Qed.

(** C5. What the two orchestrators do with a status that is not 200,
    503 or 429, given at every attempt: [analyze_document] stops after
    one request, [generate_workflow] goes through its three attempts,
    and both raise an error of status 500, not of the upstream status;
    the upstream status and message are left inside the text that
    [str(e)] gives for the exception that was caught. *)
Theorem other_status_ends_in_500
    (document_content kind : string) (server : nat -> upstream)
    (status : Z) (response_text : string) :
  status <> 200%Z -> status <> 503%Z -> status <> 429%Z ->
  (forall k, server k = Response status response_text) ->
  (exists trace,
      analyze_document document_content kind server
      = (trace,
         Failed (HTTPException 500
           ("An unexpected error occurred during analysis: "
            ++ exn_str (upstream_error status response_text))))
      /\ attempts_made trace = 1%nat)
  /\ (exists trace,
         generate_workflow document_content kind server
         = (trace,
            Failed (HTTPException 500
              ("Workflow generation failed: "
               ++ exn_str (HTTPException status
                    ("Workflow generation failed: " ++ PyStr.take 200 response_text)))))
         /\ attempts_made trace = 3%nat).
Proof.
  intros H200 H503 H429 H. split.
  - unfold analyze_document. apply (for_attempts_fails _ 0).
    + unfold max_retries. lia.
    + intros j Hj. lia.
    + apply analysis_attempt_other; auto.
  - unfold generate_workflow. apply (for_attempts_fails _ 2).
    + unfold max_retries. lia.
    + intros j Hj.
      rewrite (workflow_attempt_other _ _ _ _ _ _ H200 H503 (H j)).
      destruct j as [|[|j]]; [eexists; reflexivity | eexists; reflexivity | lia].
    + rewrite (workflow_attempt_other _ _ _ _ _ _ H200 H503 (H 2%nat)). reflexivity.
Qed.

(** *** The Analysis Orchestrator *)

Lemma parse_analysis_raw (content : string) :
  json_loads (cleaned_content content) = Raise JSONDecodeError ->
  no_bracket_parse "{" "}" content ->
  parse_analysis (JStr content) = Ok (JObj [("raw_analysis", JStr content)]).
Proof.
  intros Hstrict Hsecond. unfold parse_analysis. rewrite Hstrict. simpl.
  destruct Hsecond as [Hnone | [group [Hsome Hload]]].
  - rewrite Hnone. reflexivity.
  - rewrite Hsome, Hload. reflexivity.
Qed.

Lemma analysis_attempt_returns
    (server : nat -> upstream) (k : nat) (content : string) (parsed : json) :
  answers server k content ->
  parse_analysis (JStr content) = Ok parsed ->
  analysis_attempt server k = Return parsed.
Proof.
  intros [response_text [result_ [Hresp [Hload [Hhas Htext]]]]] Hparse.
  unfold analysis_attempt. rewrite Hresp. simpl.
  unfold analysis_of_response. rewrite Hload. simpl. rewrite Hhas. simpl.
  rewrite Htext. cbn [bind]. rewrite Hparse. reflexivity.
Qed.

(** C8. When the text of a 200 analysis response is no JSON after the
    removal of the fence, and its span from the first opening brace to
    the last closing brace is missing or is no JSON either,
    [analyze_document] returns the mapping with the single key
    raw_analysis, whose value is the text as it came. *)
Theorem unparsed_analysis_is_wrapped
    (document_content analysis_type : string) (server : nat -> upstream)
    (k : nat) (content : string) :
  (k < max_retries)%nat ->
  retried (analysis_attempt server) k ->
  answers server k content ->
  json_loads (cleaned_content content) = Raise JSONDecodeError ->
  no_bracket_parse "{" "}" content ->
  exists trace,
    analyze_document document_content analysis_type server
    = (trace, Returned (JObj [("raw_analysis", JStr content)])).
Proof.
  intros Hk Hprev Hans Hstrict Hsecond. unfold analyze_document.
  destruct (for_attempts_returns (analysis_attempt server) k
              (JObj [("raw_analysis", JStr content)]) Hk Hprev) as [trace [Hrun _]].
  - apply (analysis_attempt_returns server k content); [assumption|].
    apply parse_analysis_raw; assumption.
  - exists trace. assumption.
Qed.

(** *** The conversion of well-formed node objects *)

Lemma connection_list_kept (entries : list json) :
  forallb entry_ok entries = true ->
  validate_strs (connection_list entries) = Some (flat_map kept_target entries).
Proof.
  unfold connection_list.
  induction entries as [|conn rest IH]; cbn [forallb flat_map]; intros H;
    [reflexivity|].
  apply andb_prop in H. destruct H as [Hconn Hrest].
  specialize (IH Hrest).
  destruct conn; cbn [kept_target app validate_strs]; try assumption.
  - (* a bare string *)
    rewrite validate_str_accepts, IH. reflexivity.
  - (* a dict *)
    unfold entry_ok in Hconn. unfold Py.get in *.
    destruct (Py.lookup "target" fields) as [v|]; cbn [Py.truthy].
    + destruct v; try discriminate. cbn [Py.truthy].
      destruct (s =? ""); cbn [negb app validate_strs]; [assumption|].
      rewrite validate_str_accepts, IH. reflexivity.
    + assumption.
Qed.

Lemma convert_node_fields (path : parse_path) (i : nat) (fields : list (string * json)) :
  fields_ok fields = true ->
  convert_node path i (JObj fields) = Ok [as_node path i (JObj fields)].
Proof.
  unfold fields_ok, absent_or. intros H.
  repeat (apply andb_prop in H; let E := fresh "E" in destruct H as [H E]).
  unfold convert_node, as_node, kept_targets, entries_of, new_WorkflowNode,
    str_field, int_field, Py.get.
  assert (Hconn : exists entries,
             Py.iter match Py.lookup "connections" fields with
                     | Some v => v
                     | None => JArr []
                     end = Ok entries
             /\ forallb entry_ok entries = true
             /\ match Py.lookup "connections" fields with
                | Some (JArr es) => es
                | _ => []
                end = entries).
  { destruct (Py.lookup "connections" fields) as [v|].
    - destruct v; try discriminate. exists items. auto.
    - exists []. auto. }
  destruct Hconn as [entries [Hiter [Hok Hsame]]].
  rewrite Hiter, Hsame. cbn [bind].
  rewrite (connection_list_kept entries Hok).
  destruct (Py.lookup "id" fields) as [[]|]; try discriminate;
    destruct (Py.lookup "type" fields) as [[]|]; try discriminate;
    destruct (Py.lookup "label" fields) as [[]|]; try discriminate;
    destruct (Py.lookup "x" fields) as [[]|]; try discriminate;
    destruct (Py.lookup "y" fields) as [[]|]; try discriminate;
    rewrite ?validate_str_accepts, ?validate_int_accepts; reflexivity.
Qed.

Lemma well_formed_fields_ok (fields : list (string * json)) :
  well_formed_node (JObj fields) = true -> fields_ok fields = true.
Proof.
  unfold well_formed_node, fields_ok, present_and, absent_or.
  destruct (Py.lookup "id" fields); [|discriminate].
  destruct (Py.lookup "type" fields); [|rewrite andb_false_r; discriminate].
  destruct (Py.lookup "label" fields); [|rewrite andb_false_r; discriminate].
  destruct (Py.lookup "x" fields); [|rewrite andb_false_r; discriminate].
  destruct (Py.lookup "y" fields); [|rewrite andb_false_r; discriminate].
  destruct (Py.lookup "connections" fields); [|rewrite andb_false_r; discriminate].
  trivial.
Qed.

Lemma well_formed_id (path : parse_path) (i : nat) (node_data : json) :
  well_formed_node node_data = true ->
  WorkflowNode.id (as_node path i node_data) = id_of node_data.
Proof.
  destruct node_data; try discriminate.
  unfold well_formed_node, present_and, as_node, id_of, str_field. simpl.
  destruct (Py.lookup "id" fields) as [[]|]; try discriminate; reflexivity.
Qed.

Lemma convert_nodes_well_formed (path : parse_path) (items : list json) :
  forallb well_formed_node items = true ->
  forall i, exists nodes,
    convert_nodes path i items = Ok nodes
    /\ List.length nodes = List.length items
    /\ map WorkflowNode.id nodes = map id_of items
    /\ map WorkflowNode.connections nodes = map kept_targets items.
Proof.
  induction items as [|node_data rest IH]; simpl; intros H i.
  - exists []. auto.
  - apply andb_prop in H. destruct H as [Hnode Hrest].
    destruct (IH Hrest (S i)) as [others [Hconv [Hlen [Hids Hconns]]]].
    destruct node_data as [| | | | | |fields] eqn:Hd; try discriminate.
    rewrite (convert_node_fields path i fields (well_formed_fields_ok fields Hnode)).
    rewrite Hconv. cbn [bind].
    exists (as_node path i (JObj fields) :: others).
    split; [reflexivity|]. split; [simpl; rewrite Hlen; reflexivity|].
    split.
    + cbn [map]. rewrite Hids, (well_formed_id path i (JObj fields) Hnode). reflexivity.
    + cbn [map]. rewrite Hconns. reflexivity.
Qed.

(** C6 (as amended). When the text of the completion parses as a JSON
    array of 3 or more node objects, each with id, type, label, x, y
    and a connections list, the Normalizer returns as many nodes, with
    the same ids in the same order, and the connections of each node
    are, in order, the bare strings of its entries and the non-empty
    target strings of its dict entries; a dict entry with no target or
    with an empty one contributes nothing, and so does an entry that is
    neither a dict nor a string; the edge labels are dropped. *)
Theorem well_formed_array_is_preserved
    (content document_content workflow_type : string) (items : list json) :
  json_loads (cleaned_content content) = Ok (JArr items) ->
  (3 <= List.length items)%nat ->
  forallb well_formed_node items = true ->
  exists nodes,
    normalize (JStr content) document_content workflow_type = Ok nodes
    /\ List.length nodes = List.length items
    /\ map WorkflowNode.id nodes = map id_of items
    /\ map WorkflowNode.connections nodes = map kept_targets items.
Proof.
  intros Hload Hlen Hwf.
  destruct (convert_nodes_well_formed Primary items Hwf 0)
    as [nodes [Hconv [Hn [Hids Hconns]]]].
  exists nodes. split; [|auto].
  unfold normalize, strict_parse. rewrite Hload. cbn [bind unwrap Py.dict_has Py.iter].
  rewrite Hconv. cbn [bind].
  assert (Hus : usable nodes = true) by (apply usable_length; lia).
  rewrite Hus. reflexivity.
Qed.


(** *** Every run of the Workflow Orchestrator *)

(** A pass before the last one never raises: whatever goes wrong, it
    sleeps [base_delay * 2 ** attempt] and goes on. *)
Lemma workflow_attempt_early
    (document_content workflow_type : string) (server : nat -> upstream) (k : nat) :
  (k < max_retries - 1)%nat ->
  (exists nodes,
      workflow_attempt document_content workflow_type server k = Return nodes)
  \/ workflow_attempt document_content workflow_type server k
     = Continue (base_delay * 2 ^ Z.of_nat k).
Proof.
  intros Hk. apply Nat.ltb_lt in Hk. unfold workflow_attempt. rewrite Hk.
  destruct (server k) as [status response_text|e]; [|right; reflexivity].
  destruct (status =? 200)%Z.
  - destruct (workflow_of_response response_text document_content workflow_type)
      as [nodes|e]; cbn [of_result].
    + left. exists nodes. reflexivity.
    + right. reflexivity.
  - destruct (status =? 503)%Z; right; reflexivity.
Qed.

(** The last pass never sleeps, and what it raises has status 500. *)
Lemma workflow_attempt_last
    (document_content workflow_type : string) (server : nat -> upstream) (k : nat) :
  (k <? max_retries - 1)%nat = false ->
  (exists nodes,
      workflow_attempt document_content workflow_type server k = Return nodes)
  \/ exists e,
       workflow_attempt document_content workflow_type server k
       = Raised (HTTPException 500 ("Workflow generation failed: " ++ exn_str e)).
Proof.
  intros Hk. unfold workflow_attempt. rewrite Hk.
  destruct (server k) as [status response_text|e]; [|right; eexists; reflexivity].
  destruct (status =? 200)%Z.
  - destruct (workflow_of_response response_text document_content workflow_type)
      as [nodes|e]; cbn [of_result].
    + left. exists nodes. reflexivity.
    + right. eexists. reflexivity.
  - destruct (status =? 503)%Z; right; eexists; reflexivity.
Qed.

(** X1. Whatever the upstream does, [generate_workflow] returns or
    raises (its loop never runs out), and what it did on the way is one
    of three schedules: one request with a timeout of 30 s; or a sleep of
    2 s and a second request with 45 s; or a further sleep of 4 s and a
    third request with 60 s. *)
Theorem generate_workflow_schedule
    (document_content workflow_type : string) (server : nat -> upstream) :
  snd (generate_workflow document_content workflow_type server) <> FellThrough
  /\ In (fst (generate_workflow document_content workflow_type server))
        [ [Post 0 30];
          [Post 0 30; Sleep 2; Post 1 45];
          [Post 0 30; Sleep 2; Post 1 45; Sleep 4; Post 2 60] ].
Proof.
  unfold generate_workflow. cbn [max_retries seq for_attempts].
  destruct (workflow_attempt_early document_content workflow_type server 0)
    as [[n0 H0] | H0]; [unfold max_retries; lia | | ]; rewrite H0.
  { split; [discriminate | left; reflexivity]. }
  destruct (workflow_attempt_early document_content workflow_type server 1)
    as [[n1 H1] | H1]; [unfold max_retries; lia | | ]; rewrite H1.
  { split; [discriminate | right; left; reflexivity]. }
  destruct (workflow_attempt_last document_content workflow_type server 2 eq_refl)
    as [[n2 H2] | [e H2]]; rewrite H2;
    (split; [discriminate | right; right; left; reflexivity]).
Qed.

(** X2. Every error that [generate_workflow] raises has status 500 and a
    detail that starts with "Workflow generation failed: ", and it is
    raised only after three requests: no upstream status and no other
    error class reaches the caller. *)
Theorem generate_workflow_raises_500_only
    (document_content workflow_type : string) (server : nat -> upstream)
    (trace : list event) (e : exn) :
  generate_workflow document_content workflow_type server = (trace, Failed e) ->
  (exists cause,
      e = HTTPException 500 ("Workflow generation failed: " ++ exn_str cause))
  /\ attempts_made trace = 3%nat.
Proof.
  unfold generate_workflow. cbn [max_retries seq for_attempts].
  destruct (workflow_attempt_early document_content workflow_type server 0)
    as [[n0 H0] | H0]; [unfold max_retries; lia | | ]; rewrite H0;
    [discriminate|].
  destruct (workflow_attempt_early document_content workflow_type server 1)
    as [[n1 H1] | H1]; [unfold max_retries; lia | | ]; rewrite H1;
    [discriminate|].
  destruct (workflow_attempt_last document_content workflow_type server 2 eq_refl)
    as [[n2 H2] | [cause H2]]; rewrite H2; [discriminate|].
  intros H. inversion H; subst. split; [exists cause; reflexivity | reflexivity].
Qed.

Lemma workflow_attempt_not_ok
    (document_content workflow_type : string) (server : nat -> upstream) (k : nat) :
  (k < max_retries - 1)%nat ->
  not_ok (server k) ->
  workflow_attempt document_content workflow_type server k
  = Continue (base_delay * 2 ^ Z.of_nat k).
Proof.
  intros Hk Hno. apply Nat.ltb_lt in Hk. unfold workflow_attempt. rewrite Hk.
  destruct (server k) as [status response_text|e]; [|reflexivity].
  simpl in Hno. apply Z.eqb_neq in Hno. rewrite Hno.
  destruct (status =? 503)%Z; reflexivity.
Qed.

(** X3. [generate_workflow] recovers from every kind of failed attempt:
    when the attempts before [k] end in an exception of the call or in a
    status other than 200, whichever, and attempt [k] brings a text that
    the Normalizer turns into [nodes], the call returns [nodes] after
    [k + 1] requests. *)
Theorem generate_workflow_recovers
    (document_content workflow_type : string) (server : nat -> upstream)
    (k : nat) (content : string) (nodes : list WorkflowNode.t) :
  (k < max_retries)%nat ->
  (forall j, (j < k)%nat -> not_ok (server j)) ->
  answers server k content ->
  normalize (JStr content) document_content workflow_type = Ok nodes ->
  exists trace,
    generate_workflow document_content workflow_type server = (trace, Returned nodes)
    /\ attempts_made trace = S k.
Proof.
  intros Hk Hbad Hans Hnorm.
  apply (generate_workflow_returns _ _ _ k content); try assumption.
  intros j Hj. eexists.
  apply workflow_attempt_not_ok; [unfold max_retries in *; lia | auto].
Qed.

(** X4. A completion that is valid JSON but a bare number, boolean or
    null is not answered with the fallback graph: the loop over it raises
    a [TypeError], which is retried like a failed call, and when the
    upstream gives such a text at all three attempts the call ends in the
    error of status 500. *)
Theorem scalar_completion_is_not_rescued
    (document_content workflow_type : string) (server : nat -> upstream)
    (content : string) (v : json) :
  (forall k, (k < max_retries)%nat -> answers server k content) ->
  json_loads (cleaned_content content) = Ok v ->
  is_scalar v = true ->
  normalize (JStr content) document_content workflow_type = Raise TypeError
  /\ generate_workflow document_content workflow_type server
     = ([Post 0 30; Sleep 2; Post 1 45; Sleep 4; Post 2 60],
        Failed (HTTPException 500
          ("Workflow generation failed: " ++ exn_str TypeError))).
Proof.
  intros Hans Hload Hscalar.
  assert (Hnorm : normalize (JStr content) document_content workflow_type
                  = Raise TypeError).
  { unfold normalize, strict_parse. rewrite Hload.
    destruct v; try discriminate; reflexivity. }
  split; [assumption|].
  assert (Hatt : forall k, (k < max_retries)%nat ->
            workflow_attempt document_content workflow_type server k
            = if (k <? max_retries - 1)%nat
              then Continue (base_delay * 2 ^ Z.of_nat k)
              else Raised (HTTPException 500
                     ("Workflow generation failed: " ++ exn_str TypeError))).
  { intros k Hk.
    destruct (Hans k Hk) as [response_text [result_ [Hresp [Hl [Hhas Htext]]]]].
    unfold workflow_attempt. rewrite Hresp. simpl.
    unfold workflow_of_response. rewrite Hl. simpl. rewrite Hhas. simpl.
    rewrite Htext. cbn [bind]. rewrite Hnorm. cbn [of_result].
    destruct (k <? max_retries - 1)%nat; reflexivity. }
  unfold generate_workflow. cbn [max_retries seq for_attempts].
  rewrite (Hatt 0%nat), (Hatt 1%nat), (Hatt 2%nat) by (unfold max_retries; lia).
  reflexivity.
Qed.

(** *** Every run of the Analysis Orchestrator *)

Lemma bind_unexpected {A B : Type} (r : result A) (k : A -> result B) :
  (forall e, r = Raise e -> unexpected e = true) ->
  (forall a e, k a = Raise e -> unexpected e = true) ->
  forall e, bind r k = Raise e -> unexpected e = true.
Proof.
  intros Hr Hk e. destruct r as [a|e']; simpl.
  - apply Hk.
  - intros H. inversion H; subst. apply Hr. reflexivity.
Qed.

Lemma json_loads_unexpected (s : string) (e : exn) :
  json_loads s = Raise e -> unexpected e = true.
Proof. intros H. apply json_loads_raises in H. subst. reflexivity. Qed.

Lemma getitem_unexpected (v : json) (key : string) (e : exn) :
  Py.getitem v key = Raise e -> unexpected e = true.
Proof.
  destruct v; simpl; try (intros H; inversion H; reflexivity).
  destruct (Py.lookup key fields); intros H; inversion H; reflexivity.
Qed.

Lemma getitem0_unexpected (v : json) (e : exn) :
  Py.getitem0 v = Raise e -> unexpected e = true.
Proof.
  destruct v as [| | | |s|items|fields]; simpl;
    try (intros H; inversion H; reflexivity).
  - destruct s; intros H; inversion H; reflexivity.
  - destruct items; intros H; inversion H; reflexivity.
Qed.

Lemma has_candidates_unexpected (result_ : json) (e : exn) :
  has_candidates result_ = Raise e -> unexpected e = true.
Proof.
  unfold has_candidates. apply bind_unexpected.
  - destruct result_; simpl; intros e' H; inversion H; reflexivity.
  - intros present e'. destruct present; [|discriminate].
    apply bind_unexpected; [apply getitem_unexpected|].
    intros candidates e''. apply bind_unexpected; [|discriminate].
    destruct candidates; simpl; intros e3 H; inversion H; reflexivity.
Qed.

Lemma candidate_text_unexpected (result_ : json) (e : exn) :
  candidate_text result_ = Raise e -> unexpected e = true.
Proof.
  unfold candidate_text.
  repeat (apply bind_unexpected;
          [first [apply getitem_unexpected | apply getitem0_unexpected] | intros ? ?]).
  apply getitem_unexpected.
Qed.

Lemma parse_analysis_unexpected (content : json) (e : exn) :
  parse_analysis content = Raise e -> unexpected e = true.
Proof.
  unfold parse_analysis.
  destruct content as [| | | |c| |]; try (intros H; inversion H; reflexivity).
  destruct (json_loads (cleaned_content c)) as [v|e'] eqn:Hload; simpl;
    [discriminate|].
  apply json_loads_raises in Hload. subst e'.
  destruct (PyStr.re_search_span "{" "}" c) as [group|]; simpl; [|discriminate].
  destruct (json_loads group) as [v|e'] eqn:Hg; simpl; [discriminate|].
  apply json_loads_raises in Hg. subst e'. discriminate.
Qed.

Lemma analysis_of_response_unexpected (response_text : string) (e : exn) :
  analysis_of_response response_text = Raise e -> unexpected e = true.
Proof.
  unfold analysis_of_response.
  apply bind_unexpected; [apply json_loads_unexpected|]. intros result_ e1.
  apply bind_unexpected; [apply has_candidates_unexpected|]. intros some e2.
  destruct some.
  - apply bind_unexpected; [apply candidate_text_unexpected|].
    intros content e3. apply parse_analysis_unexpected.
  - intros H. inversion H. reflexivity.
Qed.

Lemma upstream_error_unexpected (status : Z) (response_text : string) :
  unexpected (upstream_error status response_text) = true.
Proof.
  destruct (upstream_error_class status response_text) as [E | [detail E]];
    rewrite E; reflexivity.
Qed.

(** How a pass of [analyze_document] can end. *)
Lemma analysis_attempt_shape (server : nat -> upstream) (k : nat) :
  (exists v, analysis_attempt server k = Return v)
  \/ ((k < max_retries - 1)%nat
      /\ (analysis_attempt server k = Continue (base_delay * 2 ^ Z.of_nat k)
          \/ ((exists body, server k = Response 429 body)
              /\ analysis_attempt server k = Continue (base_delay * 3 ^ Z.of_nat k))))
  \/ (exists cause,
         analysis_attempt server k
         = Raised (HTTPException 500
             ("An unexpected error occurred during analysis: " ++ exn_str cause)))
  \/ ((k <? max_retries - 1)%nat = false
      /\ server k = CallRaises TimeoutError
      /\ analysis_attempt server k = Raised (HTTPException 504 timeout_detail))
  \/ ((k <? max_retries - 1)%nat = false
      /\ (exists msg, server k = CallRaises (ClientError msg))
      /\ analysis_attempt server k = Raised (HTTPException 503 unreachable_detail)).
Proof.
  unfold analysis_attempt.
  destruct (k <? max_retries - 1)%nat eqn:Hk.
  - apply Nat.ltb_lt in Hk.
    destruct (server k) as [status response_text|e].
    + destruct (status =? 200)%Z eqn:H200.
      * destruct (analysis_of_response response_text) as [v|e] eqn:Hresp;
          cbn [of_result].
        -- left. exists v. reflexivity.
        -- apply analysis_of_response_unexpected in Hresp.
           right. right. left. exists e.
           destruct e; try discriminate; reflexivity.
      * destruct (status =? 503)%Z eqn:H503.
        -- right. left. split; [assumption|]. left. reflexivity.
        -- destruct (status =? 429)%Z eqn:H429.
           ++ apply Z.eqb_eq in H429. subst status.
              right. left. split; [assumption|]. right.
              split; [exists response_text; reflexivity | reflexivity].
           ++ right. right. left. exists (upstream_error status response_text).
              pose proof (upstream_error_unexpected status response_text) as Hu.
              destruct (upstream_error status response_text);
                try discriminate; reflexivity.
    + destruct e; try (right; right; left; eexists; reflexivity);
        right; left; (split; [assumption|]); left; reflexivity.
  - destruct (server k) as [status response_text|e].
    + destruct (status =? 200)%Z eqn:H200.
      * destruct (analysis_of_response response_text) as [v|e] eqn:Hresp;
          cbn [of_result].
        -- left. exists v. reflexivity.
        -- apply analysis_of_response_unexpected in Hresp.
           right. right. left. exists e.
           destruct e; try discriminate; reflexivity.
      * right. right. left.
        destruct (status =? 503)%Z eqn:H503; [eexists; reflexivity|].
        destruct (status =? 429)%Z eqn:H429; [eexists; reflexivity|].
        exists (upstream_error status response_text).
        pose proof (upstream_error_unexpected status response_text) as Hu.
        destruct (upstream_error status response_text);
          try discriminate; reflexivity.
    + destruct e; try (right; right; left; eexists; reflexivity).
      * right. right. right. left. repeat split; reflexivity.
      * right. right. right. right. repeat split; try reflexivity.
        exists msg. reflexivity.
Qed.

(** X5. Of the errors that [analyze_document] raises itself, only three
    reach the caller: status 500 with "An unexpected error occurred
    during analysis: ...", from any attempt; status 504 for a timeout and
    status 503 "Unable to connect" for a connection error, both only when
    the third request failed that way.  The 503 "overloaded" error, the
    429 "rate limit" error and the errors with the upstream status never
    leave the function. *)
Theorem analyze_document_raises
    (document_content analysis_type : string) (server : nat -> upstream)
    (trace : list event) (e : exn) :
  analyze_document document_content analysis_type server = (trace, Failed e) ->
  (exists cause,
      e = HTTPException 500
            ("An unexpected error occurred during analysis: " ++ exn_str cause))
  \/ (e = HTTPException 504 timeout_detail
      /\ server 2%nat = CallRaises TimeoutError
      /\ attempts_made trace = 3%nat)
  \/ (e = HTTPException 503 unreachable_detail
      /\ (exists msg, server 2%nat = CallRaises (ClientError msg))
      /\ attempts_made trace = 3%nat).
Proof.
  unfold analyze_document. cbn [max_retries seq for_attempts].
  destruct (analysis_attempt_shape server 0)
    as [[v H0] | [[_ [H0 | [_ H0]]] | [[c H0] | [[Hk _] | [Hk _]]]]];
    try discriminate Hk; rewrite H0; try discriminate;
    try (intros H; inversion H; subst; left; exists c; reflexivity).
  all: destruct (analysis_attempt_shape server 1)
      as [[v H1] | [[_ [H1 | [_ H1]]] | [[c H1] | [[Hk _] | [Hk _]]]]];
    try discriminate Hk; rewrite H1; try discriminate;
    try (intros H; inversion H; subst; left; exists c; reflexivity).
  all: destruct (analysis_attempt_shape server 2)
      as [[v H2] | [[Hk _] | [[c H2] | [[_ [Hs H2]] | [_ [Hs H2]]]]]];
    try (unfold max_retries in Hk; lia); rewrite H2; try discriminate;
    intros H; inversion H; subst.
  all: first [ left; exists c; reflexivity
             | right; left; repeat split; assumption || reflexivity
             | right; right; repeat split; assumption || reflexivity ].
Qed.

(** X6. Whatever the upstream does, [analyze_document] returns or raises
    (its loop never runs out) after one of four schedules: timeouts of
    30, 45 and 60 s, a sleep of 2 s after the first request, and after
    the second one a sleep of 4 s, or of 6 s, which happens only when the
    second answer was a 429. *)
Theorem analyze_document_schedule
    (document_content analysis_type : string) (server : nat -> upstream) :
  snd (analyze_document document_content analysis_type server) <> FellThrough
  /\ (In (fst (analyze_document document_content analysis_type server))
         [ [Post 0 30];
           [Post 0 30; Sleep 2; Post 1 45];
           [Post 0 30; Sleep 2; Post 1 45; Sleep 4; Post 2 60] ]
      \/ (fst (analyze_document document_content analysis_type server)
          = [Post 0 30; Sleep 2; Post 1 45; Sleep 6; Post 2 60]
          /\ exists body, server 1%nat = Response 429 body)).
Proof.
  unfold analyze_document. cbn [max_retries seq for_attempts].
  destruct (analysis_attempt_shape server 0)
    as [[v H0] | [[_ [H0 | [_ H0]]] | [[c H0] | [[Hk _] | [Hk _]]]]];
    try discriminate Hk; rewrite H0;
    try (split; [discriminate | left; left; reflexivity]).
  all: destruct (analysis_attempt_shape server 1)
      as [[v H1] | [[_ [H1 | [Hs H1]]] | [[c H1] | [[Hk _] | [Hk _]]]]];
    try discriminate Hk; rewrite H1;
    try (split; [discriminate | left; right; left; reflexivity]).
  all: destruct (analysis_attempt_shape server 2)
      as [[v H2] | [[Hk _] | [[c H2] | [[_ [_ H2]] | [_ [_ H2]]]]]];
    try (unfold max_retries in Hk; lia); rewrite H2;
    (split; [discriminate|]).
  all: first [ left; right; right; left; reflexivity
             | right; split; [reflexivity | assumption] ].
Qed.

Lemma analysis_attempt_transient (server : nat -> upstream) (k : nat) :
  transient (server k) ->
  analysis_attempt server k
  = if (k <? max_retries - 1)%nat then Continue (base_delay * 2 ^ Z.of_nat k)
    else Raised (match server k with
                 | CallRaises TimeoutError => HTTPException 504 timeout_detail
                 | _ => HTTPException 503 unreachable_detail
                 end).
Proof.
  intros [H | [msg H]]; unfold analysis_attempt; rewrite H;
    destruct (k <? max_retries - 1)%nat; reflexivity.
Qed.

(** X7. When the call of each of the three attempts of
    [analyze_document] fails with a timeout or a connection error, the
    function sleeps 2 s and 4 s between them, and the third failure
    decides the error: status 504 after a timeout, status 503 "Unable to
    connect" after a connection error. *)
Theorem analyze_document_gives_up
    (document_content analysis_type : string) (server : nat -> upstream) :
  (forall k, (k < max_retries)%nat -> transient (server k)) ->
  analyze_document document_content analysis_type server
  = ([Post 0 30; Sleep 2; Post 1 45; Sleep 4; Post 2 60],
     Failed (match server 2%nat with
             | CallRaises TimeoutError => HTTPException 504 timeout_detail
             | _ => HTTPException 503 unreachable_detail
             end)).
Proof.
  intros H. unfold analyze_document. cbn [max_retries seq for_attempts].
  rewrite (analysis_attempt_transient server 0), (analysis_attempt_transient server 1),
    (analysis_attempt_transient server 2) by (apply H; unfold max_retries; lia).
  reflexivity.
Qed.

Lemma parse_analysis_value (content : string) (v : json) :
  analysis_parses_to content v -> parse_analysis (JStr content) = Ok v.
Proof.
  unfold parse_analysis. intros [Hall | [Hall [group [Hspan Hg]]]]; rewrite Hall.
  - reflexivity.
  - simpl. rewrite Hspan, Hg. reflexivity.
Qed.

(** X8. [analyze_document] returns what the model wrote, unchanged and
    whatever its shape: when the text of the completion is JSON once the
    fence is removed, its value is the result, and when it is not but its
    span from the first opening brace to the last closing brace is, the
    value of that span is the result. *)
Theorem analyze_document_returns_parsed_value
    (document_content analysis_type : string) (server : nat -> upstream)
    (k : nat) (content : string) (v : json) :
  (k < max_retries)%nat ->
  retried (analysis_attempt server) k ->
  answers server k content ->
  analysis_parses_to content v ->
  exists trace,
    analyze_document document_content analysis_type server = (trace, Returned v)
    /\ attempts_made trace = S k.
Proof.
  intros Hk Hprev Hans Hparse. unfold analyze_document.
  apply for_attempts_returns; [assumption | assumption |].
  apply (analysis_attempt_returns server k content); [assumption|].
  apply parse_analysis_value. assumption.
Qed.

(** *** More of the Response Normalizer *)

(** X9. The conversion loop skips, without an error, every element that
    is not an object: when it succeeds, it has made one node for each
    object of the array and none for the rest. *)
Theorem convert_nodes_skips_non_objects
    (path : parse_path) (items : list json) (nodes : list WorkflowNode.t) :
  forall i,
    convert_nodes path i items = Ok nodes ->
    List.length nodes = List.length (filter is_object items).
Proof.
  revert nodes. induction items as [|node_data rest IH]; intros nodes i H.
  - simpl in H. inversion H. reflexivity.
  - cbn [convert_nodes] in H.
    apply bind_Ok in H. destruct H as [first [Hfirst H]].
    apply bind_Ok in H. destruct H as [others [Hrest H]].
    inversion H; subst. rewrite length_app, (IH others (S i) Hrest).
    destruct node_data; simpl in Hfirst; try (inversion Hfirst; reflexivity).
    apply bind_Ok in Hfirst. destruct Hfirst as [cs [_ Hfirst]].
    apply bind_Ok in Hfirst. destruct Hfirst as [n [_ Hfirst]].
    inversion Hfirst. reflexivity.
Qed.

(** X10. A wrapper object is treated as the value it wraps: when the text
    [c] parses as an object with a [workflow] key, or else a [nodes] key,
    and the text [c'] parses as the value [v] of that key ([workflow]
    first), the Normalizer gives the same result for both, provided [v]
    is not such a wrapper itself. *)
Theorem wrapper_is_transparent
    (c c' document_content workflow_type : string)
    (fields : list (string * json)) (v : json) :
  json_loads (cleaned_content c) = Ok (JObj fields) ->
  wrapped fields = Some v ->
  json_loads (cleaned_content c') = Ok v ->
  Py.dict_has "workflow" v = false ->
  Py.dict_has "nodes" v = false ->
  normalize (JStr c) document_content workflow_type
  = normalize (JStr c') document_content workflow_type.
Proof.
  intros Hc Hw Hc' Hnw Hnn.
  assert (Hun : unwrap (JObj fields) = Ok v).
  { unfold unwrap, wrapped, Py.dict_has, Py.getitem in *.
    destruct (Py.lookup "workflow" fields) as [w|].
    - inversion Hw. reflexivity.
    - rewrite Hw. reflexivity. }
  assert (Hun' : unwrap v = Ok v).
  { unfold unwrap. rewrite Hnw, Hnn. reflexivity. }
  assert (Hsame : strict_parse c document_content workflow_type
                  = strict_parse c' document_content workflow_type).
  { unfold strict_parse. rewrite Hc, Hc'. cbn [bind]. rewrite Hun, Hun'. reflexivity. }
  unfold normalize. rewrite Hsame.
  destruct (strict_parse c' document_content workflow_type) as [nodes|e] eqn:Hs;
    [reflexivity|].
  destruct e; try reflexivity.
  apply strict_parse_decode in Hs. rewrite Hc' in Hs. discriminate.
Qed.

Lemma from_first_app (c : ascii) (pre rest : string) :
  has_char c pre = false ->
  PyStr.from_first c (pre ++ String c rest) = Some (String c rest).
Proof.
  induction pre as [|a pre IH]; simpl; intros H.
  - rewrite Ascii.eqb_refl. reflexivity.
  - apply orb_false_elim in H. destruct H as [Ha Hpre].
    rewrite Ha. apply IH. assumption.
Qed.

Lemma upto_last_none (c : ascii) (s : string) :
  has_char c s = false -> PyStr.upto_last c s = None.
Proof.
  induction s as [|a s IH]; simpl; intros H; [reflexivity|].
  apply orb_false_elim in H. destruct H as [Ha Hs].
  rewrite (IH Hs), Ha. reflexivity.
Qed.

Lemma upto_last_app (c : ascii) (mid post : string) :
  has_char c post = false ->
  PyStr.upto_last c (mid ++ String c post) = Some (mid ++ String c "").
Proof.
  intros Hpost. induction mid as [|a mid IH]; simpl.
  - rewrite (upto_last_none c post Hpost), Ascii.eqb_refl. reflexivity.
  - rewrite IH. reflexivity.
Qed.

(** The search takes the span from the first opening delimiter to the
    last closing one. *)
Lemma re_search_span_app (o c : ascii) (pre mid post : string) :
  has_char o pre = false ->
  has_char c post = false ->
  PyStr.re_search_span o c (pre ++ String o (mid ++ String c post))
  = Some (String o (mid ++ String c "")).
Proof.
  intros Hpre Hpost. unfold PyStr.re_search_span.
  rewrite (from_first_app o pre _ Hpre), (upto_last_app c mid post Hpost).
  reflexivity.
Qed.

(** X11. An array with prose around it is recovered: when the text is no
    JSON as a whole, has no opening bracket before the array and no
    closing bracket after it, and the array parses to 3 or more
    well-formed node objects, the Normalizer returns their nodes (same
    count, ids and kept targets) and not the fallback graph. *)
Theorem array_in_prose_is_recovered
    (pre mid post document_content workflow_type : string) (items : list json) :
  has_char "[" pre = false ->
  has_char "]" post = false ->
  json_loads (cleaned_content (pre ++ String "[" (mid ++ String "]" post)))
  = Raise JSONDecodeError ->
  json_loads (String "[" (mid ++ String "]" "")) = Ok (JArr items) ->
  (3 <= List.length items)%nat ->
  forallb well_formed_node items = true ->
  exists nodes,
    normalize (JStr (pre ++ String "[" (mid ++ String "]" post)))
      document_content workflow_type = Ok nodes
    /\ List.length nodes = List.length items
    /\ map WorkflowNode.id nodes = map id_of items
    /\ map WorkflowNode.connections nodes = map kept_targets items.
Proof.
  intros Hpre Hpost Hall Harr Hlen Hwf.
  destruct (convert_nodes_well_formed Secondary items Hwf 0)
    as [nodes [Hconv [Hn [Hids Hconns]]]].
  exists nodes. split; [|auto].
  unfold normalize, strict_parse. rewrite Hall. cbn [bind except_JSONDecodeError].
  unfold bracket_parse.
  rewrite (re_search_span_app "[" "]" pre mid post Hpre Hpost), Harr.
  cbn [bind Py.iter]. rewrite Hconv. cbn [bind].
  assert (Hus : usable nodes = true) by (apply usable_length; lia).
  rewrite Hus. reflexivity.
Qed.

(** *** The fence *)

Lemma app_nonempty (s t : string) : t <> "" -> s ++ t <> "".
Proof. destruct s; simpl; [auto | discriminate]. Qed.

Lemma rstrip_app (s t : string) :
  t <> "" -> PyStr.rstrip t = t -> PyStr.rstrip (s ++ t) = s ++ t.
Proof.
  intros Hne Ht. induction s as [|c s IH]; simpl; [assumption|].
  rewrite IH. destruct (s ++ t) eqn:E; [|reflexivity].
  exfalso. apply (app_nonempty s t Hne). assumption.
Qed.

Lemma rstrip_cons (c : ascii) (r : string) :
  r <> "" -> PyStr.rstrip r = r -> PyStr.rstrip (String c r) = String c r.
Proof.
  intros Hne Hr. simpl. rewrite Hr. destruct r; [contradiction | reflexivity].
Qed.

Lemma prefix_other (c : ascii) (old s : string) (a : ascii) :
  Ascii.eqb a c = false -> prefix (String c old) (String a s) = false.
Proof.
  intros H. simpl. destruct (ascii_dec c a) as [E|E]; [|reflexivity].
  subst. rewrite Ascii.eqb_refl in H. discriminate.
Qed.

Lemma prefix_app (p s : string) : prefix p (p ++ s) = true.
Proof.
  induction p as [|a p IH]; simpl; [destruct s; reflexivity|].
  destruct (ascii_dec a a); [assumption | contradiction].
Qed.

Lemma remove_from_skip (old p s : string) :
  PyStr.remove_from old (String.length p) (p ++ s) = PyStr.remove_from old 0 s.
Proof.
  induction p as [|a p IH]; simpl; [reflexivity | assumption].
Qed.

Lemma remove_from_head (a : ascii) (old s : string) :
  PyStr.remove_from (String a old) 0 (String a old ++ s)
  = PyStr.remove_from (String a old) 0 s.
Proof.
  change (String a old ++ s) with (String a (old ++ s)).
  cbn [PyStr.remove_from].
  change (String a (old ++ s)) with (String a old ++ s).
  rewrite prefix_app.
  change (String.length (String a old) - 1)%nat with (String.length old - 0)%nat.
  rewrite Nat.sub_0_r. apply remove_from_skip.
Qed.

Lemma remove_json_fence (body : string) :
  has_char "`" body = false ->
  PyStr.remove_from "```json" 0 (body ++ "```") = body ++ "```".
Proof.
  induction body as [|a body IH]; intros H.
  - reflexivity.
  - simpl in H. apply orb_false_elim in H. destruct H as [Ha Hb].
    change (String a body ++ "```") with (String a (body ++ "```")).
    cbn [PyStr.remove_from].
    rewrite (prefix_other "`" _ _ a Ha), (IH Hb). reflexivity.
Qed.

Lemma remove_plain_fence (body : string) :
  has_char "`" body = false ->
  PyStr.remove_from "```" 0 (body ++ "```") = body.
Proof.
  induction body as [|a body IH]; intros H.
  - reflexivity.
  - simpl in H. apply orb_false_elim in H. destruct H as [Ha Hb].
    change (String a body ++ "```") with (String a (body ++ "```")).
    cbn [PyStr.remove_from].
    rewrite (prefix_other "`" _ _ a Ha), (IH Hb). reflexivity.
Qed.

Lemma has_char_lstrip (c : ascii) (s : string) :
  has_char c s = false -> has_char c (PyStr.lstrip s) = false.
Proof.
  induction s as [|a s IH]; simpl; intros H; [reflexivity|].
  destruct (PyStr.isspace a); [|assumption].
  apply orb_false_elim in H. apply IH, H.
Qed.

Lemma has_char_rstrip (c : ascii) (s : string) :
  has_char c s = false -> has_char c (PyStr.rstrip s) = false.
Proof.
  induction s as [|a s IH]; simpl; intros H; [reflexivity|].
  apply orb_false_elim in H. destruct H as [Ha Hs]. specialize (IH Hs).
  destruct (PyStr.rstrip s) as [|b r].
  - destruct (PyStr.isspace a); simpl; [reflexivity|]. rewrite Ha. reflexivity.
  - simpl. rewrite Ha. exact IH.
Qed.

Lemma prefix_no_char (c : ascii) (old s : string) :
  has_char c s = false -> prefix (String c old) s = false.
Proof.
  destruct s as [|a s]; simpl; intros H; [reflexivity|].
  apply orb_false_elim in H. destruct H as [Ha _].
  destruct (ascii_dec c a) as [E|E]; [|reflexivity].
  subst. rewrite Ascii.eqb_refl in Ha. discriminate.
Qed.

(** X12. The removal of the fence undoes the fencing: for a text [body]
    without a backtick, what is left of [body] between a "```json" line
    and a closing "```" is [body] without the white space at its two
    ends, as for the bare text. *)
Theorem fence_is_removed (body : string) :
  has_char "`" body = false ->
  cleaned_content ("```json" ++ body ++ "```") = PyStr.strip body
  /\ cleaned_content body = PyStr.strip body.
Proof.
  intros H. split.
  - unfold cleaned_content.
    assert (Hne : body ++ "```" <> "") by (apply app_nonempty; discriminate).
    assert (Hs : PyStr.strip ("```json" ++ body ++ "```") = "```json" ++ body ++ "```").
    { unfold PyStr.strip.
      change (PyStr.lstrip ("```json" ++ body ++ "```"))
        with ("```json" ++ body ++ "```").
      change ("```json" ++ body ++ "```")
        with (String "`" (String "`" (String "`" (String "j" (String "s"
               (String "o" (String "n" (body ++ "```")))))))).
      repeat (apply rstrip_cons; [first [discriminate | exact Hne]|]).
      apply rstrip_app; [discriminate | reflexivity]. }
    rewrite Hs. unfold PyStr.startswith. rewrite prefix_app.
    unfold PyStr.remove_all.
    rewrite (remove_from_head "`" "``json" (body ++ "```")).
    rewrite (remove_json_fence body H), (remove_plain_fence body H). reflexivity.
  - unfold cleaned_content, PyStr.startswith.
    assert (Hno : has_char "`" (PyStr.strip body) = false).
    { unfold PyStr.strip. apply has_char_rstrip, has_char_lstrip, H. }
    rewrite (prefix_no_char "`" "``json" _ Hno), (prefix_no_char "`" "``" _ Hno).
    reflexivity.
Qed.

(** *** The shape of the fallback graphs *)

Lemma distinct_NoDup {A : Type} (eqb : A -> A -> bool) (l : list A) :
  (forall a b, a = b -> eqb a b = true) ->
  distinct eqb l = true -> NoDup l.
Proof.
  intros Heqb. induction l as [|a rest IH]; simpl; intros H; [constructor|].
  apply andb_prop in H. destruct H as [Hnot Hrest].
  constructor; [|apply IH; assumption].
  intros Hin. apply negb_true_iff in Hnot.
  assert (Hex : existsb (eqb a) rest = true).
  { apply existsb_exists. exists a. split; [assumption | apply Heqb; reflexivity]. }
  rewrite Hex in Hnot. discriminate.
Qed.

(** X13. In every graph of the Fallback Synthesizer the ids are pairwise
    different, and the first node is the node of kind start, with the id
    "start". *)
Theorem fallback_ids_unique (content workflow_type : string) :
  NoDup (map WorkflowNode.id (_create_smart_fallback_workflow content workflow_type))
  /\ exists first rest,
       _create_smart_fallback_workflow content workflow_type = first :: rest
       /\ WorkflowNode.id first = "start"
       /\ WorkflowNode.type first = "start".
Proof.
  split.
  - apply (distinct_NoDup String.eqb).
    + intros a b E. apply String.eqb_eq. assumption.
    + apply (fallback_forall (fun g => distinct String.eqb (map WorkflowNode.id g))).
      vm_compute. reflexivity.
  - pose proof (fallback_forall
                  (fun g => match g with
                            | n :: _ => (WorkflowNode.id n =? "start")
                                        && (WorkflowNode.type n =? "start")
                            | [] => false
                            end) eq_refl content workflow_type) as H.
    cbv beta in H.
    destruct (_create_smart_fallback_workflow content workflow_type) as [|first rest];
      [discriminate|].
    apply andb_prop in H. destruct H as [Hid Hkind].
    exists first, rest. repeat split; apply String.eqb_eq; assumption.
Qed.

Lemma degree_ok_spec (n : WorkflowNode.t) :
  degree_ok n = true ->
  (WorkflowNode.type n = "decision" /\ List.length (WorkflowNode.connections n) = 2%nat)
  \/ (WorkflowNode.type n = "end" /\ WorkflowNode.connections n = [])
  \/ ((WorkflowNode.type n = "start" \/ WorkflowNode.type n = "process")
      /\ List.length (WorkflowNode.connections n) = 1%nat).
Proof.
  unfold degree_ok.
  destruct (WorkflowNode.type n =? "decision") eqn:Hd.
  - intros H. left. split; [apply String.eqb_eq | apply Nat.eqb_eq]; assumption.
  - destruct (WorkflowNode.type n =? "end") eqn:He.
    + intros H. right. left. split; [apply String.eqb_eq; assumption|].
      apply Nat.eqb_eq in H. destruct (WorkflowNode.connections n);
        [reflexivity | discriminate].
    + destruct ((WorkflowNode.type n =? "start") || (WorkflowNode.type n =? "process"))
        eqn:Hs; [|discriminate].
      intros H. right. right. split; [|apply Nat.eqb_eq; assumption].
      apply orb_prop in Hs. destruct Hs as [Hs | Hs]; [left | right];
        apply String.eqb_eq; assumption.
Qed.

(** X14. In every graph of the Fallback Synthesizer the kind of a node is
    one of start, process, decision and end, and it fixes the number of
    its edges: a decision has exactly two branches, an end has no edge,
    a start or a process has exactly one. *)
Theorem fallback_degrees (content workflow_type : string) :
  Forall
    (fun n =>
       (WorkflowNode.type n = "decision"
        /\ List.length (WorkflowNode.connections n) = 2%nat)
       \/ (WorkflowNode.type n = "end" /\ WorkflowNode.connections n = [])
       \/ ((WorkflowNode.type n = "start" \/ WorkflowNode.type n = "process")
           /\ List.length (WorkflowNode.connections n) = 1%nat))
    (_create_smart_fallback_workflow content workflow_type).
Proof.
  apply Forall_forall. intros n Hn. apply degree_ok_spec.
  pose proof (fallback_forall (forallb degree_ok) eq_refl content workflow_type) as H.
  rewrite forallb_forall in H. apply H. assumption.
Qed.

Lemma Reachable_trans (nodes : list WorkflowNode.t) (a b c : string) :
  Reachable nodes a b -> Reachable nodes b c -> Reachable nodes a c.
Proof.
  intros Hab Hbc. induction Hbc as [|n c' Hbn IH Hn Hc]; [assumption|].
  apply (reach_step nodes a n); assumption.
Qed.

Lemma successors_sound (nodes : list WorkflowNode.t) (ids : list string) (b : string) :
  In b (successors nodes ids) ->
  exists a, In a ids /\ Reachable nodes a b.
Proof.
  unfold successors. rewrite in_flat_map. intros [n [Hn Hb]].
  destruct (existsb (String.eqb (WorkflowNode.id n)) ids) eqn:Hex; [|contradiction].
  apply existsb_exists in Hex. destruct Hex as [a [Ha Heq]].
  apply String.eqb_eq in Heq. exists a. split; [assumption|].
  apply (reach_step nodes a n); [rewrite Heq; constructor | assumption | assumption].
Qed.

Lemma closure_sound (nodes : list WorkflowNode.t) (fuel : nat) :
  forall ids b,
    In b (closure fuel nodes ids) ->
    exists a, In a ids /\ Reachable nodes a b.
Proof.
  induction fuel as [|fuel IH]; simpl; intros ids b Hb.
  - exists b. split; [assumption | constructor].
  - destruct (IH _ _ Hb) as [a [Ha Hab]].
    apply in_app_or in Ha. destruct Ha as [Ha | Ha].
    + exists a. split; assumption.
    + destruct (successors_sound nodes ids a Ha) as [a0 [Ha0 Hreach]].
      exists a0. split; [assumption|].
      apply (Reachable_trans nodes a0 a b); assumption.
Qed.

Lemma within_sound (nodes : list WorkflowNode.t) (a b : string) :
  within nodes a b = true -> Reachable nodes a b.
Proof.
  unfold within. intros H. apply existsb_exists in H.
  destruct H as [b' [Hin Heq]]. apply String.eqb_eq in Heq. subst b'.
  destruct (closure_sound nodes _ _ _ Hin) as [a' [[Ha | []] Hreach]].
  subst a'. assumption.
Qed.

(** X15. Every graph of the Fallback Synthesizer is connected the way a
    workflow should be: each node can be reached from the node "start"
    along the edges, and from each node a node of kind end can be
    reached, so no node is an orphan and no branch is a dead loop. *)
Theorem fallback_well_connected (content workflow_type : string) :
  let graph := _create_smart_fallback_workflow content workflow_type in
  Forall
    (fun n =>
       Reachable graph "start" (WorkflowNode.id n)
       /\ exists m,
            In m graph /\ WorkflowNode.type m = "end"
            /\ Reachable graph (WorkflowNode.id n) (WorkflowNode.id m))
    graph.
Proof.
  intros graph. apply Forall_forall. intros n Hn.
  pose proof (fallback_forall well_connected) as H.
  specialize (H ltac:(vm_compute; reflexivity) content workflow_type).
  fold graph in H. unfold well_connected in H.
  rewrite forallb_forall in H. specialize (H n Hn).
  apply andb_prop in H. destruct H as [Hfrom Hto].
  split; [apply within_sound; assumption|].
  apply existsb_exists in Hto. destruct Hto as [m [Hm Hend]].
  apply andb_prop in Hend. destruct Hend as [Hkind Hreach].
  exists m. split; [assumption|]. split; [apply String.eqb_eq; assumption|].
  apply within_sound. assumption.
Qed.

(** X16. In every graph of the Fallback Synthesizer no two nodes are
    drawn at the same place: the positions (x, y) are pairwise
    different. *)
Theorem fallback_positions_distinct (content workflow_type : string) :
  NoDup (map position (_create_smart_fallback_workflow content workflow_type)).
Proof.
  apply (distinct_NoDup position_eqb).
  - intros a b E. subst b. unfold position_eqb. rewrite !Z.eqb_refl. reflexivity.
  - apply (fallback_forall (fun g => distinct position_eqb (map position g))).
    vm_compute. reflexivity.
Qed.

(** *** Keywords inside a longer text *)

Lemma lower_app (s t : string) :
  PyStr.lower (s ++ t) = PyStr.lower s ++ PyStr.lower t.
Proof.
  induction s as [|a s IH]; simpl; [reflexivity|]. rewrite IH. reflexivity.
Qed.

Lemma prefix_app_r (w : string) :
  forall s post, prefix w s = true -> prefix w (s ++ post) = true.
Proof.
  induction w as [|a w IH]; intros s post H.
  - destruct (s ++ post); reflexivity.
  - destruct s as [|b s]; simpl in H; [discriminate|]. simpl.
    destruct (ascii_dec a b); [apply IH; assumption | discriminate].
Qed.

Lemma contains_app_r (w s post : string) :
  PyStr.contains w s = true -> PyStr.contains w (s ++ post) = true.
Proof.
  induction s as [|a s IH]; intros H.
  - simpl in H. rewrite orb_false_r in H.
    destruct w; [|discriminate].
    destruct post; reflexivity.
  - change (String a s ++ post) with (String a (s ++ post)).
    cbn [PyStr.contains] in *. apply orb_prop in H. apply orb_true_iff.
    destruct H as [H | H].
    + left. apply (prefix_app_r w (String a s) post H).
    + right. apply IH. assumption.
Qed.

Lemma contains_app_l (w pre s : string) :
  PyStr.contains w s = true -> PyStr.contains w (pre ++ s) = true.
Proof.
  intros H. induction pre as [|a pre IH]; [assumption|].
  change (String a pre ++ s) with (String a (pre ++ s)).
  cbn [PyStr.contains]. rewrite IH. apply orb_true_r.
Qed.

Lemma in_first_bucket_app (workflow_type pre content post : string) :
  in_first_bucket workflow_type content = true ->
  in_first_bucket workflow_type (pre ++ content ++ post) = true.
Proof.
  unfold in_first_bucket. intros H.
  apply existsb_exists in H. destruct H as [w [Hw Hc]].
  apply existsb_exists. exists w. split; [assumption|].
  rewrite !lower_app. apply contains_app_l, contains_app_r. assumption.
Qed.

Lemma first_bucket_graph (workflow_type text1 text2 : string) :
  in_first_bucket workflow_type text1 = true ->
  in_first_bucket workflow_type text2 = true ->
  _create_smart_fallback_workflow text1 workflow_type
  = _create_smart_fallback_workflow text2 workflow_type.
Proof.
  unfold in_first_bucket, first_bucket, _create_smart_fallback_workflow. cbv zeta.
  destruct (workflow_type =? "user_journey");
    [|destruct (workflow_type =? "service_blueprint");
      [|destruct (workflow_type =? "feature_flow")]];
    cbn [existsb]; rewrite ?orb_false_r, ?orb_assoc;
    intros H1 H2; try discriminate; rewrite H1, H2; reflexivity.
Qed.

(** X17. The first group of keywords of a kind wins whatever stands
    around it: when a text holds, in any letter case, a keyword of that
    group (e-commerce, shopping, cart for a user journey; support,
    ticket, customer for a service blueprint; api, integration for a
    feature flow), every text that contains it gets the same graph, also
    when it holds keywords of a later group. *)
Theorem first_bucket_wins (workflow_type pre content post : string) :
  in_first_bucket workflow_type content = true ->
  _create_smart_fallback_workflow (pre ++ content ++ post) workflow_type
  = _create_smart_fallback_workflow content workflow_type.
Proof.
  intros H. apply first_bucket_graph; [|assumption].
  apply in_first_bucket_app. assumption.
Qed.

(** *** The parsers *)

Lemma rstrip_idempotent (s : string) : PyStr.rstrip (PyStr.rstrip s) = PyStr.rstrip s.
Proof.
  induction s as [|c s IH]; [reflexivity|]. cbn [PyStr.rstrip].
  destruct (PyStr.rstrip s) as [|b r] eqn:E.
  - destruct (PyStr.isspace c) eqn:Hc; [reflexivity|].
    cbn [PyStr.rstrip]. rewrite Hc. reflexivity.
  - cbn [PyStr.rstrip] in *. rewrite IH. reflexivity.
Qed.

Lemma lstrip_idempotent (s : string) : PyStr.lstrip (PyStr.lstrip s) = PyStr.lstrip s.
Proof.
  induction s as [|c s IH]; [reflexivity|]. cbn [PyStr.lstrip].
  destruct (PyStr.isspace c) eqn:Hc; [assumption|].
  cbn [PyStr.lstrip]. rewrite Hc. reflexivity.
Qed.

Lemma lstrip_rstrip (u : string) :
  PyStr.lstrip u = u -> PyStr.lstrip (PyStr.rstrip u) = PyStr.rstrip u.
Proof.
  destruct u as [|c r]; [reflexivity|]. cbn [PyStr.lstrip].
  destruct (PyStr.isspace c) eqn:Hc.
  - intros H. exfalso.
    assert (Hlen : (String.length (PyStr.lstrip r) <= String.length r)%nat).
    { clear. induction r as [|a r IH]; simpl; [lia|].
      destruct (PyStr.isspace a); simpl; lia. }
    rewrite H in Hlen. simpl in Hlen. lia.
  - intros _. cbn [PyStr.rstrip].
    destruct (PyStr.rstrip r); rewrite ?Hc; cbn [PyStr.lstrip]; rewrite Hc; reflexivity.
Qed.

Lemma strip_idempotent (s : string) : PyStr.strip (PyStr.strip s) = PyStr.strip s.
Proof.
  unfold PyStr.strip.
  rewrite (lstrip_rstrip (PyStr.lstrip s) (lstrip_idempotent s)).
  apply rstrip_idempotent.
Qed.

Lemma parse_pdf_raises (file_content : list Byte.byte) (e : exn) :
  parse_pdf file_content = Raise e ->
  e = ValueError "Could not extract text from PDF".
Proof.
  unfold parse_pdf.
  destruct (pdfplumber_pages file_content) as [pages|e1];
    [match goal with
     | |- context [blank (PyStr.strip ?t)] => destruct (blank (PyStr.strip t))
     end|];
    try discriminate;
    (destruct (pypdf2_pages file_content) as [pages2|e2];
     [match goal with
      | |- context [blank (PyStr.strip ?t)] => destruct (blank (PyStr.strip t))
      end|]);
    try discriminate; intros H; inversion H; reflexivity.
Qed.

(** X18. [parse_pdf] never returns a blank text: what it returns is not
    empty and has no white space at its two ends, and the only error it
    raises is the [ValueError] "Could not extract text from PDF",
    whatever the two libraries raised. *)
Theorem parse_pdf_never_blank (file_content : list Byte.byte) :
  (forall text,
      parse_pdf file_content = Ok text ->
      text <> "" /\ PyStr.strip text = text)
  /\ (forall e,
         parse_pdf file_content = Raise e ->
         e = ValueError "Could not extract text from PDF").
Proof.
  split; [|intros e; apply parse_pdf_raises].
  unfold parse_pdf. intros text.
  destruct (pdfplumber_pages file_content) as [pages|e1].
  + match goal with
    | |- context [blank (PyStr.strip ?t)] =>
        destruct (blank (PyStr.strip t)) eqn:Hb1
    end.
    * destruct (pypdf2_pages file_content) as [pages2|e2]; [|discriminate].
      match goal with
      | |- context [blank (PyStr.strip ?t)] =>
          destruct (blank (PyStr.strip t)) eqn:Hb2
      end; [discriminate|].
      intros H. inversion H; subst. split; [|apply strip_idempotent].
      intros E. unfold blank in Hb2. apply String.eqb_neq in Hb2. apply Hb2. exact E.
    * intros H. inversion H; subst. split; [|apply strip_idempotent].
      intros E. unfold blank in Hb1. apply String.eqb_neq in Hb1. apply Hb1. exact E.
  + destruct (pypdf2_pages file_content) as [pages2|e2]; [|discriminate].
    match goal with
    | |- context [blank (PyStr.strip ?t)] =>
        destruct (blank (PyStr.strip t)) eqn:Hb2
    end; [discriminate|].
    intros H. inversion H; subst. split; [|apply strip_idempotent].
    intros E. unfold blank in Hb2. apply String.eqb_neq in Hb2. apply Hb2. exact E.
Qed.

(** X19. [parse_text] never raises: bytes that are not UTF-8 are read as
    latin-1, which takes every byte, so the attempts with cp1252 and
    iso-8859-1 and the [ValueError] behind them are never reached.  The
    result is the decoded text without the white space at its ends. *)
Theorem parse_text_never_raises (file_content : list Byte.byte) :
  parse_text file_content
  = Ok (PyStr.strip
          match decode_utf8 file_content with
          | Some text => text
          | None => string_of_list_byte file_content
          end).
Proof.
  unfold parse_text, decode. cbn [String.eqb Ascii.eqb Bool.eqb].
  destruct (decode_utf8 file_content); reflexivity.
Qed.

(** *** The routes *)

(** X20. No request is ever authenticated: [get_current_user] raises an
    error of status 401 for every value of the credentials, a valid
    token included (the 503 of the disabled database is turned into a
    401 too), and so [get_current_user_optional] always gives [None]. *)
Theorem authentication_never_succeeds (credentials : option string) :
  (exists detail, get_current_user credentials = Raise (HTTPException 401 detail))
  /\ get_current_user_optional credentials = None.
Proof.
  assert (H : exists detail,
             get_current_user credentials = Raise (HTTPException 401 detail)).
  { unfold get_current_user. destruct credentials as [token|].
    - destruct (verify_token token) as [payload|e]; cbn [bind].
      + destruct payload; try (eexists; reflexivity).
        destruct (Py.truthy (Py.get fields "user_id" JNull)); eexists; reflexivity.
      + eexists. reflexivity.
    - eexists. reflexivity. }
  split; [assumption|].
  unfold get_current_user_optional. destruct credentials; [|reflexivity].
  destruct H as [detail H]. rewrite H. reflexivity.
Qed.

(** X21. The route [generate_workflow] never answers with a workflow:
    whatever the request and the upstream, it makes the requests of the
    service and then raises an error of status 500 whose detail starts
    with "Workflow generation failed: "; when the service did return
    nodes, the cause is the 503 "Database is disabled" that the route
    raises itself before its [return]. *)
Theorem api_generate_workflow_always_fails
    (request : WorkflowRequest.t) (current_user : option User.t)
    (uuid now : string) (server : nat -> upstream) :
  let service :=
    generate_workflow (WorkflowRequest.document_content request)
      (WorkflowRequest.workflow_type request) server in
  exists cause,
    api_generate_workflow request current_user uuid now server
    = (fst service,
       Raise (HTTPException 500 ("Workflow generation failed: " ++ exn_str cause)))
    /\ (forall nodes,
           snd service = Returned nodes ->
           cause = HTTPException 503 "Database is disabled. Workflow save unavailable.").
Proof.
  intros service. unfold api_generate_workflow. fold service.
  destruct service as [trace o]. cbn [fst snd].
  destruct o as [nodes|e|]; cbn [bind new_Workflow].
  - eexists. split; [reflexivity|]. intros nodes' _. reflexivity.
  - exists e. split; [reflexivity|]. discriminate.
  - exists ValidationError. split; [reflexivity|]. discriminate.
Qed.

(** X22. The route [analyze_document]: when the service returns a value
    that passes as a dict, the response carries it unchanged, with the
    id and the timestamp that were drawn, the length of the document in
    characters, the analysis type as the request gave it and the id of
    the user; and every error of the route, those of status 503 and 504
    of the service included, reaches the client with status 500 and a
    detail that starts with "Analysis failed: ". *)
Theorem api_analyze_document_answers
    (request : DocumentAnalysisRequest.t) (current_user : option User.t)
    (uuid now : string) (server : nat -> upstream) :
  let service :=
    analyze_document (DocumentAnalysisRequest.document_content request)
      (DocumentAnalysisRequest.analysis_type request) server in
  (forall v,
      snd service = Returned v ->
      validate_dict v = Some v ->
      api_analyze_document request current_user uuid now server
      = (fst service,
         Ok (DocumentAnalysisResponse.mk uuid v
               (String.length (DocumentAnalysisRequest.document_content request))
               (DocumentAnalysisRequest.analysis_type request)
               now (id_of_user current_user))))
  /\ (forall e,
         snd (api_analyze_document request current_user uuid now server) = Raise e ->
         exists cause,
           e = HTTPException 500 ("Analysis failed: " ++ exn_str cause)).
Proof.
  intros service. unfold api_analyze_document. fold service.
  destruct service as [trace o]. cbn [fst snd]. split.
  - intros v Ho Hv. subst o. cbn [awaited bind].
    unfold new_DocumentAnalysis, new_DocumentAnalysisResponse.
    rewrite Hv. reflexivity.
  - intros e.
    match goal with
    | |- context [match ?t with Raise _ => _ | Ok _ => _ end] => destruct t as [r|e']
    end; [discriminate|].
    intros H. inversion H. exists e'. reflexivity.
Qed.

Lemma for_attempts_Failed {A : Type} (body : nat -> step A) :
  forall attempts trace e,
    for_attempts body attempts = (trace, Failed e) ->
    exists k, In k attempts /\ body k = Raised e.
Proof.
  induction attempts as [|attempt rest IH]; simpl; intros trace e H.
  - discriminate.
  - destruct (body attempt) as [a'|e'|d] eqn:Hb.
    + discriminate.
    + inversion H; subst. exists attempt. auto.
    + destruct (for_attempts body rest) as [trace' o] eqn:Hrest.
      inversion H; subst.
      destruct (IH trace' e eq_refl) as [k [Hin Hk]].
      exists k. auto.
Qed.

(** What [analyze_document] raises is an [HTTPException]. *)
Lemma analyze_document_fails_http
    (document_content analysis_type : string) (server : nat -> upstream)
    (trace : list event) (e : exn) :
  analyze_document document_content analysis_type server = (trace, Failed e) ->
  exists status detail, e = HTTPException status detail.
Proof.
  unfold analyze_document. intros H.
  apply for_attempts_Failed in H. destruct H as [k [_ Hk]].
  destruct (analysis_attempt_shape server k)
    as [[v H] | [[_ [H | [_ H]]] | [[c H] | [[_ [_ H]] | [_ [_ H]]]]]];
    rewrite H in Hk; inversion Hk; eexists; eexists; reflexivity.
Qed.

(** X23. A file whose name, in lower case, ends in none of .pdf, .docx,
    .txt and .md is rejected with the error of status 400 "Unsupported
    file type", and no request is made to the upstream. *)
Theorem unsupported_extension_is_rejected
    (name : string) (file_content : list Byte.byte)
    (analysis_type : string) (current_user : option User.t)
    (uuid now : string) (server : nat -> upstream) :
  endswith ".pdf" (PyStr.lower name) = false ->
  endswith ".docx" (PyStr.lower name) = false ->
  endswith ".txt" (PyStr.lower name) = false ->
  endswith ".md" (PyStr.lower name) = false ->
  api_analyze_document_file (Some name) file_content analysis_type current_user
    uuid now server
  = ([],
     Raise (HTTPException 400
       "Unsupported file type. Please upload PDF, DOCX, TXT, or MD files.")).
Proof.
  intros Hpdf Hdocx Htxt Hmd.
  unfold api_analyze_document_file, parse_by_extension.
  rewrite Hpdf, Hdocx, Htxt, Hmd. reflexivity.
Qed.

(** X24. The route [analyze_document_file] hands the errors of the
    service on as they are: when the file gave a text that is not blank
    and [analyze_document] raises, the client gets that very error, with
    its status 500, 503 or 504 (where the route [analyze_document] makes
    a 500 of each). *)
Theorem file_route_keeps_the_error
    (name : string) (file_content : list Byte.byte)
    (analysis_type : string) (current_user : option User.t)
    (uuid now : string) (server : nat -> upstream)
    (document_content : string) (trace : list event) (e : exn) :
  parse_by_extension (PyStr.lower name) file_content = Ok document_content ->
  blank (PyStr.strip document_content) = false ->
  analyze_document document_content analysis_type server = (trace, Failed e) ->
  api_analyze_document_file (Some name) file_content analysis_type current_user
    uuid now server
  = (trace, Raise e).
Proof.
  intros Hparse Hblank Hrun.
  destruct (analyze_document_fails_http _ _ _ _ _ Hrun) as [status [detail He]].
  unfold api_analyze_document_file. rewrite Hparse. cbn [bind]. rewrite Hblank.
  rewrite Hrun. subst e. reflexivity.
Qed.

(** X25. A file without text is rejected before any request, but not in
    the same way for every format: a PDF from which no text comes ends
    in the error of status 500 "File analysis failed: ...", since
    [parse_pdf] raises, while a .txt or .md file that holds white space
    only ends in the error of status 400 "No readable content found in
    the file". *)
Theorem file_without_text_is_rejected
    (name : string) (file_content : list Byte.byte)
    (analysis_type : string) (current_user : option User.t)
    (uuid now : string) (server : nat -> upstream) :
  (endswith ".pdf" (PyStr.lower name) = true ->
   (forall text, parse_pdf file_content <> Ok text) ->
   api_analyze_document_file (Some name) file_content analysis_type current_user
     uuid now server
   = ([],
      Raise (HTTPException 500
        ("File analysis failed: "
         ++ exn_str (ValueError "Could not extract text from PDF")))))
  /\ (endswith ".pdf" (PyStr.lower name) = false ->
      endswith ".docx" (PyStr.lower name) = false ->
      endswith ".txt" (PyStr.lower name) || endswith ".md" (PyStr.lower name) = true ->
      (forall text, parse_text file_content = Ok text -> text = "") ->
      api_analyze_document_file (Some name) file_content analysis_type current_user
        uuid now server
      = ([], Raise (HTTPException 400 "No readable content found in the file"))).
Proof.
  split.
  - intros Hpdf Hno.
    unfold api_analyze_document_file, parse_by_extension. rewrite Hpdf.
    destruct (parse_pdf file_content) as [text|e] eqn:Hp.
    + exfalso. apply (Hno text). reflexivity.
    + rewrite (parse_pdf_raises file_content e Hp). reflexivity.
  - intros Hpdf Hdocx Htxt Hblank.
    unfold api_analyze_document_file, parse_by_extension.
    rewrite Hpdf, Hdocx, Htxt.
    destruct (parse_text file_content) as [text|e] eqn:Hp.
    + rewrite (Hblank text eq_refl). reflexivity.
    + unfold parse_text, decode in Hp. cbn [String.eqb Ascii.eqb Bool.eqb] in Hp.
      destruct (decode_utf8 file_content); discriminate.
Qed.

End GeminiAIService.

(** ** The theorems on sample runs *)

Lemma strict_str_accepts (s : string) : strict_str (JStr s) = Some s.
Proof. reflexivity. Qed.

Lemma strict_int_accepts (n : Z) : strict_int (JInt n) = Some n.
Proof. reflexivity. Qed.

Example cleaned_content_fence :
  cleaned_content "  ```json [{}, {}, {}] ```  " = three_blanks.
Proof. reflexivity. Qed.

Example re_search_span_greedy :
  PyStr.re_search_span "[" "]" "a [1, [2]] b ] c [" = Some "[1, [2]] b ]".
Proof. reflexivity. Qed.

Example of_nat_decimal : "node_" ++ PyStr.of_nat 12 = "node_12".
Proof. reflexivity. Qed.

(** The apology is answered with the fallback graph, here at the second
    attempt, after a 503. *)
Lemma unusable_text_gives_fallback_witness :
  let graph := _create_smart_fallback_workflow "Customer support" "service_blueprint" in
  (exists trace,
      generate_workflow sample_parse strict_str strict_int class_name
        "Customer support" "service_blueprint"
        (after_503 (Response 200 (body_of apology)))
      = (trace, Returned graph))
  /\ (5 <= List.length graph)%nat
  /\ count_kind "start" graph = 1%nat
  /\ (1 <= count_kind "end" graph)%nat.
Proof.
  apply (unusable_text_gives_fallback sample_parse strict_str strict_int class_name
           "Customer support" "service_blueprint"
           (after_503 (Response 200 (body_of apology))) 1 apology).
  - unfold max_retries. lia.
  - intros j Hj. destruct j as [|j]; [|lia]. eexists. reflexivity.
  - exists (body_of apology), (envelope (JStr apology)). repeat split; reflexivity.
  - split; [reflexivity|]. left. left. reflexivity.
Defined.

(** C1, as stated, fails: for the kind service_blueprint the fallback
    graph that answers the apology has two nodes of kind end, not exactly
    one. *)
Lemma fallback_with_two_ends_counterexample :
  unusable_text sample_parse strict_str strict_int apology
  /\ generate_workflow sample_parse strict_str strict_int class_name
       "" "service_blueprint" (always (Response 200 (body_of apology)))
     = ([Post 0 30],
        Returned (_create_smart_fallback_workflow "" "service_blueprint"))
  /\ count_kind "end" (_create_smart_fallback_workflow "" "service_blueprint") = 2%nat
  /\ count_kind "end" (_create_smart_fallback_workflow "" "service_blueprint") <> 1%nat.
Proof.
  split; [|split; [|split]].
  - split; [reflexivity|]. left. left. reflexivity.
  - reflexivity.
  - reflexivity.
  - vm_compute. discriminate.
Qed.

Lemma ecommerce_document_gives_reference_graph_witness :
  exists trace nodes,
    generate_workflow sample_parse strict_str strict_int class_name
      "An E-Commerce shop with a Cart" "user_journey"
      (always (Response 200 (body_of apology)))
    = (trace, Returned nodes)
    /\ nodes = ecommerce_graph
    /\ List.length nodes = 11%nat
    /\ map WorkflowNode.id nodes
       = ["start"; "browse"; "select"; "cart"; "auth_check"; "login"; "payment";
          "success_check"; "retry"; "confirmation"; "end"].
Proof.
  apply (ecommerce_document_gives_reference_graph sample_parse strict_str strict_int
           class_name "An E-Commerce shop with a Cart"
           (always (Response 200 (body_of apology))) 0 apology).
  - reflexivity.
  - unfold max_retries. lia.
  - intros j Hj. lia.
  - exists (body_of apology), (envelope (JStr apology)). repeat split; reflexivity.
  - split; [reflexivity|]. left. left. reflexivity.
Defined.

(** C3, as stated, fails: an array of three empty node objects is
    converted to three nodes of kind process and returned as it is, with
    no node of kind start and none of kind end. *)
Lemma returned_without_start_counterexample :
  generate_workflow sample_parse strict_str strict_int class_name
    "A shopping cart" "user_journey" (always (Response 200 (body_of three_blanks)))
  = ([Post 0 30],
     Returned [ WorkflowNode.mk "node_0" "process" "Step 1" 200 100 [];
                WorkflowNode.mk "node_1" "process" "Step 2" 500 100 [];
                WorkflowNode.mk "node_2" "process" "Step 3" 800 100 [] ])
  /\ count_kind "start"
       [ WorkflowNode.mk "node_0" "process" "Step 1" 200 100 [];
         WorkflowNode.mk "node_1" "process" "Step 2" 500 100 [];
         WorkflowNode.mk "node_2" "process" "Step 3" 800 100 [] ] = 0%nat
  /\ count_kind "end"
       [ WorkflowNode.mk "node_0" "process" "Step 1" 200 100 [];
         WorkflowNode.mk "node_1" "process" "Step 2" 500 100 [];
         WorkflowNode.mk "node_2" "process" "Step 3" 800 100 [] ] = 0%nat.
Proof. repeat split; reflexivity. Qed.

(** The parts of the invariant: on the three converted nodes, on a
    fallback graph, on two nodes that the bracket extraction found, and
    on three nodes of kind process, which the normalizer and
    [generate_workflow] hand back as they are. *)
Lemma returned_nodes_invariant_witness :
  ((2 < List.length
          [ WorkflowNode.mk "node_0" "process" "Step 1" 200 100 [];
            WorkflowNode.mk "node_1" "process" "Step 2" 500 100 [];
            WorkflowNode.mk "node_2" "process" "Step 3" 800 100 [] ])%nat
   /\ ([ WorkflowNode.mk "node_0" "process" "Step 1" 200 100 [];
            WorkflowNode.mk "node_1" "process" "Step 2" 500 100 [];
            WorkflowNode.mk "node_2" "process" "Step 3" 800 100 [] ]
       = _create_smart_fallback_workflow "A shopping cart" "user_journey"
       \/ exists path content items,
            parsed_items sample_parse path content items
            /\ convert_nodes strict_str strict_int path 0 items
               = Ok [ WorkflowNode.mk "node_0" "process" "Step 1" 200 100 [];
            WorkflowNode.mk "node_1" "process" "Step 2" 500 100 [];
            WorkflowNode.mk "node_2" "process" "Step 3" 800 100 [] ]))
  /\ (count_kind "start" (_create_smart_fallback_workflow "an API" "feature_flow") = 1%nat
      /\ (1 <= count_kind "end" (_create_smart_fallback_workflow "an API" "feature_flow"))%nat)
  /\ normalize sample_parse strict_str strict_int (JStr two_blanks_in_prose)
       "A shopping cart" "user_journey"
     = Ok (_create_smart_fallback_workflow "A shopping cart" "user_journey")
  /\ normalize sample_parse strict_str strict_int (JStr three_blanks)
       "A shopping cart" "user_journey"
     = Ok [ WorkflowNode.mk "node_0" "process" "Step 1" 200 100 [];
            WorkflowNode.mk "node_1" "process" "Step 2" 500 100 [];
            WorkflowNode.mk "node_2" "process" "Step 3" 800 100 [] ]
  /\ exists trace,
       generate_workflow sample_parse strict_str strict_int class_name
         "A shopping cart" "user_journey"
         (after_503 (Response 200 (body_of three_blanks)))
       = (trace,
          Returned
            [ WorkflowNode.mk "node_0" "process" "Step 1" 200 100 [];
            WorkflowNode.mk "node_1" "process" "Step 2" 500 100 [];
            WorkflowNode.mk "node_2" "process" "Step 3" 800 100 [] ])
       /\ attempts_made trace = 2%nat.
Proof.
  destruct (returned_nodes_invariant sample_parse strict_str strict_int class_name)
    as [Hreturned [Hfallback [Hreplaced [Hkept Hgiven]]]].
  split; [|split; [|split; [|split]]].
  - apply (Hreturned "A shopping cart" "user_journey"
             (always (Response 200 (body_of three_blanks))) [Post 0 30]).
    reflexivity.
  - apply (Hfallback "an API" "feature_flow").
  - apply (Hreplaced Secondary two_blanks_in_prose [JObj []; JObj []]
             [ WorkflowNode.mk "node_0" "process" "Step 1" 100 100 [];
               WorkflowNode.mk "node_1" "process" "Step 2" 250 100 [] ]).
    + split; [reflexivity|].
      exists "[{}, {}]", (JArr [JObj []; JObj []]). repeat split; reflexivity.
    + reflexivity.
    + simpl. lia.
  - apply (Hkept Primary three_blanks [JObj []; JObj []; JObj []]).
    + exists (JArr [JObj []; JObj []; JObj []]), (JArr [JObj []; JObj []; JObj []]).
      repeat split; reflexivity.
    + reflexivity.
    + simpl. lia.
  - apply (Hgiven Primary three_blanks [JObj []; JObj []; JObj []]
             [ WorkflowNode.mk "node_0" "process" "Step 1" 200 100 [];
            WorkflowNode.mk "node_1" "process" "Step 2" 500 100 [];
            WorkflowNode.mk "node_2" "process" "Step 3" 800 100 [] ]
             "A shopping cart" "user_journey"
             (after_503 (Response 200 (body_of three_blanks))) 1%nat).
    + unfold max_retries. lia.
    + intros j Hj. assert (j = 0%nat) by lia. subst j.
      eexists. reflexivity.
    + exists (body_of three_blanks), (envelope (JStr three_blanks)).
      repeat split; reflexivity.
    + exists (JArr [JObj []; JObj []; JObj []]), (JArr [JObj []; JObj []; JObj []]).
      repeat split; reflexivity.
    + reflexivity.
    + simpl. lia.
Defined.

Lemma three_503_end_in_500_witness :
  exists trace,
    generate_workflow sample_parse strict_str strict_int class_name
      "A shopping cart" "user_journey" (always (Response 503 ""))
    = (trace,
       Failed (HTTPException 500
         ("Workflow generation failed: "
          ++ class_name (HTTPException 503
               "AI service temporarily overloaded. Please try generating workflow again in a moment."))))
    /\ attempts_made trace = 3%nat.
Proof.
  apply (three_503_end_in_500 sample_parse strict_str strict_int class_name
           "A shopping cart" "user_journey" (always (Response 503 ""))).
  intros k Hk. exists "". reflexivity.
Defined.

Lemma other_status_ends_in_500_witness :
  (exists trace,
      analyze_document sample_parse class_name show "A shopping cart" "summary"
        (always (Response 400 error_body))
      = (trace,
         Failed (HTTPException 500
           ("An unexpected error occurred during analysis: "
            ++ class_name (upstream_error sample_parse show 400 error_body))))
      /\ attempts_made trace = 1%nat)
  /\ (exists trace,
         generate_workflow sample_parse strict_str strict_int class_name
           "A shopping cart" "summary" (always (Response 400 error_body))
         = (trace,
            Failed (HTTPException 500
              ("Workflow generation failed: "
               ++ class_name (HTTPException 400
                    ("Workflow generation failed: " ++ PyStr.take 200 error_body)))))
         /\ attempts_made trace = 3%nat).
Proof.
  apply (other_status_ends_in_500 sample_parse strict_str strict_int class_name show
           "A shopping cart" "summary" (always (Response 400 error_body)) 400 error_body).
  - lia.
  - lia.
  - lia.
  - intros k. reflexivity.
Defined.

(** C6, as stated, fails: the dict entry with the empty target gives
    nothing to the connections of node a, although its target value is
    the empty string. *)
Lemma empty_target_is_dropped_counterexample :
  json_loads sample_parse (cleaned_content three_steps) = Ok (JArr three_steps_value)
  /\ forallb well_formed_node three_steps_value = true
  /\ exists nodes,
       normalize sample_parse strict_str strict_int (JStr three_steps)
         "A shopping cart" "user_journey" = Ok nodes
       /\ map WorkflowNode.connections nodes = [["b"; "c"]; []; []]
       /\ map (fun d => flat_map stated_target (entries_of d)) three_steps_value
          = [["b"; ""; "c"]; []; []]
       /\ map WorkflowNode.connections nodes
          <> map (fun d => flat_map stated_target (entries_of d)) three_steps_value.
Proof.
  split; [reflexivity|]. split; [reflexivity|].
  eexists. split; [reflexivity|]. split; [reflexivity|]. split; [reflexivity|].
  vm_compute. discriminate.
Qed.

Lemma well_formed_array_is_preserved_witness :
  exists nodes,
    normalize sample_parse strict_str strict_int (JStr three_steps)
      "A shopping cart" "user_journey" = Ok nodes
    /\ List.length nodes = List.length three_steps_value
    /\ map WorkflowNode.id nodes = map id_of three_steps_value
    /\ map WorkflowNode.connections nodes = map kept_targets three_steps_value.
Proof.
  apply (well_formed_array_is_preserved sample_parse strict_str strict_int
           strict_str_accepts strict_int_accepts
           three_steps "A shopping cart" "user_journey" three_steps_value).
  - reflexivity.
  - simpl. lia.
  - reflexivity.
Defined.


Example defaults_on_both_paths :
  convert_node strict_str strict_int Primary 2 (JObj [("type", JStr "decision")])
  = Ok [WorkflowNode.mk "node_2" "decision" "Step 3" 800 100 []]
  /\ convert_node strict_str strict_int Secondary 2 (JObj [("type", JStr "decision")])
     = Ok [WorkflowNode.mk "node_2" "decision" "Step 3" 400 100 []].
Proof. split; reflexivity. Qed.

Lemma unparsed_analysis_is_wrapped_witness :
  exists trace,
    analyze_document sample_parse class_name show "A shopping cart" "summary"
      (after_503 (Response 200 (body_of apology)))
    = (trace, Returned (JObj [("raw_analysis", JStr apology)])).
Proof.
  apply (unparsed_analysis_is_wrapped sample_parse class_name show
           "A shopping cart" "summary" (after_503 (Response 200 (body_of apology)))
           1 apology).
  - unfold max_retries. lia.
  - intros j Hj. destruct j as [|j]; [|lia]. eexists. reflexivity.
  - exists (body_of apology), (envelope (JStr apology)). repeat split; reflexivity.
  - reflexivity.
  - left. reflexivity.
Defined.

Lemma fallback_pure_and_case_insensitive_witness :
  _create_smart_fallback_workflow "Shopping Cart" "user_journey"
  = _create_smart_fallback_workflow "SHOPPING CART" "user_journey".
Proof.
  apply (fallback_pure_and_case_insensitive "user_journey" "Shopping Cart" "SHOPPING CART").
  right. left. reflexivity.
Defined.

(** ** More sample runs *)

Lemma generate_workflow_raises_500_only_witness :
  (exists cause,
      HTTPException 500
        ("Workflow generation failed: "
         ++ class_name (HTTPException 503
              "AI service temporarily overloaded. Please try generating workflow again in a moment."))
      = HTTPException 500 ("Workflow generation failed: " ++ class_name cause))
  /\ attempts_made [Post 0 30; Sleep 2; Post 1 45; Sleep 4; Post 2 60] = 3%nat.
Proof.
  apply (generate_workflow_raises_500_only sample_parse strict_str strict_int class_name
           "A shopping cart" "user_journey" (always (Response 503 ""))).
  reflexivity.
Defined.

Lemma generate_workflow_recovers_witness :
  exists trace,
    generate_workflow sample_parse strict_str strict_int class_name
      "A shopping cart" "user_journey"
      (fun attempt =>
         match attempt with
         | 0%nat => CallRaises TimeoutError
         | 1%nat => Response 400 error_body
         | _ => Response 200 (body_of three_blanks)
         end)
    = (trace,
       Returned [ WorkflowNode.mk "node_0" "process" "Step 1" 200 100 [];
                  WorkflowNode.mk "node_1" "process" "Step 2" 500 100 [];
                  WorkflowNode.mk "node_2" "process" "Step 3" 800 100 [] ])
    /\ attempts_made trace = 3%nat.
Proof.
  apply (generate_workflow_recovers sample_parse strict_str strict_int class_name
           "A shopping cart" "user_journey" _ 2 three_blanks).
  - unfold max_retries. lia.
  - intros j Hj. destruct j as [|[|j]]; simpl; [trivial | lia | lia].
  - exists (body_of three_blanks), (envelope (JStr three_blanks)).
    repeat split; reflexivity.
  - reflexivity.
Defined.

Lemma scalar_completion_is_not_rescued_witness :
  normalize more_parse strict_str strict_int (JStr "42") "A shopping cart" "user_journey"
  = Raise TypeError
  /\ generate_workflow more_parse strict_str strict_int class_name
       "A shopping cart" "user_journey" (always (Response 200 (body_of "42")))
     = ([Post 0 30; Sleep 2; Post 1 45; Sleep 4; Post 2 60],
        Failed (HTTPException 500
          ("Workflow generation failed: " ++ class_name TypeError))).
Proof.
  apply (scalar_completion_is_not_rescued more_parse strict_str strict_int class_name
           "A shopping cart" "user_journey" (always (Response 200 (body_of "42")))
           "42" (JInt 42)).
  - intros k Hk. exists (body_of "42"), (envelope (JStr "42")).
    repeat split; reflexivity.
  - reflexivity.
  - reflexivity.
Defined.

Lemma analyze_document_raises_witness :
  (exists cause,
      HTTPException 504 timeout_detail
      = HTTPException 500
          ("An unexpected error occurred during analysis: " ++ class_name cause))
  \/ (HTTPException 504 timeout_detail = HTTPException 504 timeout_detail
      /\ times_out 2%nat = CallRaises TimeoutError
      /\ attempts_made [Post 0 30; Sleep 2; Post 1 45; Sleep 4; Post 2 60] = 3%nat)
  \/ (HTTPException 504 timeout_detail = HTTPException 503 unreachable_detail
      /\ (exists msg, times_out 2%nat = CallRaises (ClientError msg))
      /\ attempts_made [Post 0 30; Sleep 2; Post 1 45; Sleep 4; Post 2 60] = 3%nat).
Proof.
  apply (analyze_document_raises sample_parse class_name show
           "A shopping cart" "summary" times_out).
  reflexivity.
Defined.

Lemma analyze_document_gives_up_witness :
  analyze_document sample_parse class_name show "A shopping cart" "summary"
    (fun attempt =>
       match attempt with
       | 2%nat => CallRaises (ClientError "Connection reset")
       | _ => CallRaises TimeoutError
       end)
  = ([Post 0 30; Sleep 2; Post 1 45; Sleep 4; Post 2 60],
     Failed (HTTPException 503 unreachable_detail)).
Proof.
  apply (analyze_document_gives_up sample_parse class_name show
           "A shopping cart" "summary"
           (fun attempt =>
              match attempt with
              | 2%nat => CallRaises (ClientError "Connection reset")
              | _ => CallRaises TimeoutError
              end)).
  intros k Hk. destruct k as [|[|[|k]]].
  - left. reflexivity.
  - left. reflexivity.
  - right. exists "Connection reset". reflexivity.
  - unfold max_retries in Hk. lia.
Defined.

Lemma analyze_document_returns_parsed_value_witness :
  exists trace,
    analyze_document more_parse class_name show "A shopping cart" "summary"
      (after_503 (Response 200 (body_of "Summary: {} Thanks.")))
    = (trace, Returned (JObj []))
    /\ attempts_made trace = 2%nat.
Proof.
  apply (analyze_document_returns_parsed_value more_parse class_name show
           "A shopping cart" "summary"
           (after_503 (Response 200 (body_of "Summary: {} Thanks.")))
           1 "Summary: {} Thanks.").
  - unfold max_retries. lia.
  - intros j Hj. destruct j as [|j]; [|lia]. eexists. reflexivity.
  - exists (body_of "Summary: {} Thanks."), (envelope (JStr "Summary: {} Thanks.")).
    repeat split; reflexivity.
  - right. split; [reflexivity|]. exists "{}". split; reflexivity.
Defined.

Lemma convert_nodes_skips_non_objects_witness :
  List.length
    [ WorkflowNode.mk "node_1" "process" "Step 2" 500 100 [];
      WorkflowNode.mk "node_3" "process" "Step 4" 1100 100 [] ]
  = List.length (filter is_object [JInt 1; JObj []; JStr "x"; JObj []]).
Proof.
  apply (convert_nodes_skips_non_objects strict_str strict_int Primary
           [JInt 1; JObj []; JStr "x"; JObj []] _ 0).
  reflexivity.
Defined.

Lemma wrapper_is_transparent_witness :
  normalize more_parse strict_str strict_int (JStr wrapped_blanks)
    "A shopping cart" "user_journey"
  = normalize more_parse strict_str strict_int (JStr three_blanks)
      "A shopping cart" "user_journey".
Proof.
  apply (wrapper_is_transparent more_parse strict_str strict_int
           wrapped_blanks three_blanks "A shopping cart" "user_journey"
           [("workflow", JArr [JObj []; JObj []; JObj []])]
           (JArr [JObj []; JObj []; JObj []]));
    reflexivity.
Defined.

Lemma array_in_prose_is_recovered_witness :
  exists nodes,
    normalize sample_parse strict_str strict_int
      (JStr ("Here is the workflow: " ++ String "[" (three_steps_inside ++ String "]" " Done.")))
      "A shopping cart" "user_journey" = Ok nodes
    /\ List.length nodes = List.length three_steps_value
    /\ map WorkflowNode.id nodes = map id_of three_steps_value
    /\ map WorkflowNode.connections nodes = map kept_targets three_steps_value.
Proof.
  apply (array_in_prose_is_recovered sample_parse strict_str strict_int
           strict_str_accepts strict_int_accepts
           "Here is the workflow: " three_steps_inside " Done."
           "A shopping cart" "user_journey" three_steps_value).
  - reflexivity.
  - reflexivity.
  - reflexivity.
  - reflexivity.
  - simpl. lia.
  - reflexivity.
Defined.

Lemma fence_is_removed_witness :
  cleaned_content ("```json" ++ (newline ++ "[{}, {}, {}]" ++ newline) ++ "```")
  = PyStr.strip (newline ++ "[{}, {}, {}]" ++ newline)
  /\ cleaned_content (newline ++ "[{}, {}, {}]" ++ newline)
     = PyStr.strip (newline ++ "[{}, {}, {}]" ++ newline).
Proof.
  apply (fence_is_removed (newline ++ "[{}, {}, {}]" ++ newline)).
  reflexivity.
Defined.

Lemma first_bucket_wins_witness :
  _create_smart_fallback_workflow
    ("Posts on social media about " ++ "our Shopping app" ++ ", every day")
    "user_journey"
  = _create_smart_fallback_workflow "our Shopping app" "user_journey".
Proof.
  apply (first_bucket_wins "user_journey" "Posts on social media about "
           "our Shopping app" ", every day").
  reflexivity.
Defined.

Lemma parse_pdf_never_blank_witness :
  ("Hello" <> "" /\ PyStr.strip "Hello" = "Hello")
  /\ ValueError "Could not extract text from PDF"
     = ValueError "Could not extract text from PDF".
Proof.
  split.
  - apply (proj1 (parse_pdf_never_blank plumber_fails
                    (pages_from [("%PDF-1.7 sample", [" Hello "; ""])])
                    (list_byte_of_string "%PDF-1.7 sample")) "Hello").
    reflexivity.
  - apply (proj2 (parse_pdf_never_blank plumber_fails
                    (pages_from [("%PDF-1.7 sample", [" Hello "; ""])])
                    (list_byte_of_string "%PDF-1.7 scanned"))
                 (ValueError "Could not extract text from PDF")).
    reflexivity.
Defined.

Lemma api_generate_workflow_always_fails_witness :
  api_generate_workflow sample_parse strict_str strict_int class_name
    (WorkflowRequest.mk "A shopping cart" "user_journey") None
    "3f2a" "2024-01-01T00:00:00" (always (Response 200 (body_of three_blanks)))
  = ([Post 0 30],
     Raise (HTTPException 500
       ("Workflow generation failed: "
        ++ class_name (HTTPException 503
             "Database is disabled. Workflow save unavailable.")))).
Proof.
  destruct (api_generate_workflow_always_fails sample_parse strict_str strict_int
              class_name (WorkflowRequest.mk "A shopping cart" "user_journey") None
              "3f2a" "2024-01-01T00:00:00"
              (always (Response 200 (body_of three_blanks))))
    as [cause [Hrun Hcause]].
  rewrite (Hcause _ eq_refl) in Hrun. exact Hrun.
Defined.

Lemma api_analyze_document_answers_witness :
  api_analyze_document more_parse class_name show strict_dict
    (DocumentAnalysisRequest.mk "A shopping cart" "summary") None
    "3f2a" "2024-01-01T00:00:00"
    (always (Response 200 (body_of "Summary: {} Thanks.")))
  = ([Post 0 30],
     Ok (DocumentAnalysisResponse.mk "3f2a" (JObj []) 15 "summary"
           "2024-01-01T00:00:00" None)).
Proof.
  apply (proj1 (api_analyze_document_answers more_parse class_name show strict_dict
                  (DocumentAnalysisRequest.mk "A shopping cart" "summary") None
                  "3f2a" "2024-01-01T00:00:00"
                  (always (Response 200 (body_of "Summary: {} Thanks."))))
               (JObj [])).
  - reflexivity.
  - reflexivity.
Defined.

Lemma unsupported_extension_is_rejected_witness :
  api_analyze_document_file sample_parse class_name show
    plumber_fails (pages_from []) docx_fails decode_ascii decode_nothing strict_dict
    (Some "Photo.JPG") (list_byte_of_string "JFIF") "summary" None
    "3f2a" "2024-01-01T00:00:00" (always (Response 200 (body_of apology)))
  = ([],
     Raise (HTTPException 400
       "Unsupported file type. Please upload PDF, DOCX, TXT, or MD files.")).
Proof.
  apply (unsupported_extension_is_rejected sample_parse class_name show
           plumber_fails (pages_from []) docx_fails decode_ascii decode_nothing
           strict_dict "Photo.JPG"); reflexivity.
Defined.

Lemma file_route_keeps_the_error_witness :
  api_analyze_document_file sample_parse class_name show
    plumber_fails (pages_from []) docx_fails decode_ascii decode_nothing strict_dict
    (Some "Notes.TXT") (list_byte_of_string " A shopping cart ") "summary" None
    "3f2a" "2024-01-01T00:00:00" times_out
  = ([Post 0 30; Sleep 2; Post 1 45; Sleep 4; Post 2 60],
     Raise (HTTPException 504 timeout_detail)).
Proof.
  apply (file_route_keeps_the_error sample_parse class_name show
           plumber_fails (pages_from []) docx_fails decode_ascii decode_nothing
           strict_dict "Notes.TXT" (list_byte_of_string " A shopping cart ")
           "summary" None "3f2a" "2024-01-01T00:00:00" times_out
           "A shopping cart"); reflexivity.
Defined.

Lemma file_without_text_is_rejected_witness :
  api_analyze_document_file sample_parse class_name show
    plumber_fails (pages_from []) docx_fails decode_ascii decode_nothing strict_dict
    (Some "Scan.PDF") (list_byte_of_string "%PDF-1.7 scanned") "summary" None
    "3f2a" "2024-01-01T00:00:00" (always (Response 200 (body_of apology)))
  = ([],
     Raise (HTTPException 500
       ("File analysis failed: "
        ++ class_name (ValueError "Could not extract text from PDF"))))
  /\ api_analyze_document_file sample_parse class_name show
       plumber_fails (pages_from []) docx_fails decode_ascii decode_nothing strict_dict
       (Some "empty.md") (list_byte_of_string "   ") "summary" None
       "3f2a" "2024-01-01T00:00:00" (always (Response 200 (body_of apology)))
     = ([], Raise (HTTPException 400 "No readable content found in the file")).
Proof.
  split.
  - apply (proj1 (file_without_text_is_rejected sample_parse class_name show
                    plumber_fails (pages_from []) docx_fails decode_ascii
                    decode_nothing strict_dict "Scan.PDF"
                    (list_byte_of_string "%PDF-1.7 scanned") "summary" None
                    "3f2a" "2024-01-01T00:00:00"
                    (always (Response 200 (body_of apology))))).
    + reflexivity.
    + intros text. vm_compute. discriminate.
  - apply (proj2 (file_without_text_is_rejected sample_parse class_name show
                    plumber_fails (pages_from []) docx_fails decode_ascii
                    decode_nothing strict_dict "empty.md"
                    (list_byte_of_string "   ") "summary" None
                    "3f2a" "2024-01-01T00:00:00"
                    (always (Response 200 (body_of apology))))).
    + reflexivity.
    + reflexivity.
    + reflexivity.
    + intros text H. vm_compute in H. inversion H. reflexivity.
Defined.

Example endswith_examples :
  endswith ".pdf" "report.pdf" = true
  /\ endswith ".pdf" "report.pdf.bak" = false
  /\ endswith ".docx" "x" = false
  /\ endswith ".md" ".md" = true.
Proof. repeat split; reflexivity. Qed.

Example parse_text_latin1 :
  parse_text decode_ascii decode_nothing
    [Byte.x63; Byte.x61; Byte.x66; Byte.xe9; Byte.x20]
  = Ok (String "c" (String "a" (String "f" (String (ascii_of_nat 233) "")))).
Proof. reflexivity. Qed.
